(** * Provisioning service client: request shaping of [DeviceEnrollment]

    A shallow embedding of the [DeviceEnrollment] class of the provisioning
    service client (constructor, [_createOrUpdate], [_delete], [_get],
    [bulkOperation], [_getEnrollFunc]) together with the JavaScript
    primitives the class relies on: truthiness, [typeof], string
    conversion and [encodeURIComponent].

    The transport ([RestApiClient]) is an external collaborator.  It is
    modelled as a recording double: [executeApiCall] appends the request
    to a log, and the completion closure handed to it is kept in the
    request so that its effect on the caller's handler can be evaluated. *)

From Stdlib Require Import ZArith List String Ascii Bool Lia DecimalString.
Import ListNotations.
Local Open Scope Z_scope.

(** ** JavaScript strings

    A JavaScript string is a sequence of UTF-16 code units. *)

Definition jsstring := list Z.

(** [lit s] is the JavaScript string denoted by an ASCII source literal. *)
Definition lit (s : string) : jsstring :=
  map (fun a => Z.of_nat (nat_of_ascii a)) (list_ascii_of_string s).

Definition jsstring_eqb (a b : jsstring) : bool :=
  if list_eq_dec Z.eq_dec a b then true else false.

(** ** [encodeURIComponent] (ECMA-262, abstract operation Encode)

    Code units of the unreserved set are copied; every other code point
    is written as the percent-escaped octets of its UTF-8 form.  A
    surrogate code unit that is not part of a pair makes the built-in
    throw [URIError]: the model returns [None] there. *)

Definition in_range (lo hi c : Z) : bool := (lo <=? c) && (c <=? hi).

Definition uriMark : jsstring := lit "-_.!~*'()".

Definition uriUnreserved (c : Z) : bool :=
  in_range 65 90 c || in_range 97 122 c || in_range 48 57 c
  || existsb (Z.eqb c) uriMark.

Definition is_lead_surrogate (c : Z) : bool := in_range 55296 56319 c.
Definition is_trail_surrogate (c : Z) : bool := in_range 56320 57343 c.

Definition hex_digit (n : Z) : Z :=
  let d := Z.land n 15 in
  if d <? 10 then 48 + d else 55 + d.

Definition percent_octet (b : Z) : jsstring :=
  [37; hex_digit (Z.shiftr b 4); hex_digit b].

Definition utf8_octets (cp : Z) : list Z :=
  if cp <? 128 then [cp]
  else if cp <? 2048 then
    [Z.lor 192 (Z.shiftr cp 6); Z.lor 128 (Z.land cp 63)]
  else if cp <? 65536 then
    [Z.lor 224 (Z.shiftr cp 12);
     Z.lor 128 (Z.land (Z.shiftr cp 6) 63);
     Z.lor 128 (Z.land cp 63)]
  else
    [Z.lor 240 (Z.shiftr cp 18);
     Z.lor 128 (Z.land (Z.shiftr cp 12) 63);
     Z.lor 128 (Z.land (Z.shiftr cp 6) 63);
     Z.lor 128 (Z.land cp 63)].

Definition percent_encode (cp : Z) : jsstring :=
  flat_map percent_octet (utf8_octets cp).

Definition pair_code_point (lead trail : Z) : Z :=
  (lead - 55296) * 1024 + (trail - 56320) + 65536.

Fixpoint encodeURIComponent (s : jsstring) : option jsstring :=
  match s with
  | [] => Some []
  | c :: rest =>
      if uriUnreserved c then option_map (cons c) (encodeURIComponent rest)
      else if is_trail_surrogate c then None
      else if is_lead_surrogate c then
        match rest with
        | d :: rest' =>
            if is_trail_surrogate d
            then option_map (app (percent_encode (pair_code_point c d)))
                            (encodeURIComponent rest')
            else None
        | [] => None
        end
      else option_map (app (percent_encode c)) (encodeURIComponent rest)
  end.

(** ** JavaScript values

    The methods inspect their arguments at run time ([typeof], truthiness),
    so arguments are dynamically typed values.  Numbers are restricted to
    integers; a function value carries an identity and its source text
    (what string conversion yields); an object is its list of own
    properties in insertion order. *)

#[warnings="-register-all"] Inductive value : Type :=
| VUndefined
| VNull
| VBool (b : bool)
| VNum (n : Z)
| VStr (s : jsstring)
| VFun (ident : nat) (source : jsstring)
| VObj (props : list (string * value)).

Definition object := list (string * value).

(** ToBoolean. *)
Definition truthy (v : value) : bool :=
  match v with
  | VUndefined | VNull => false
  | VBool b => b
  | VNum n => negb (n =? 0)
  | VStr s => match s with [] => false | _ :: _ => true end
  | VFun _ _ | VObj _ => true
  end.

Definition typeof (v : value) : string :=
  match v with
  | VUndefined => "undefined"
  | VNull | VObj _ => "object"
  | VBool _ => "boolean"
  | VNum _ => "number"
  | VStr _ => "string"
  | VFun _ _ => "function"
  end.

(** ToString, as applied by string concatenation and by
    [encodeURIComponent] to its argument.  A number is printed with all
    its decimal digits, which is what JavaScript does for integers of
    magnitude below 10^21; larger magnitudes (printed in exponent form
    there) are outside the numbers this model stands for. *)
Definition ToString (v : value) : jsstring :=
  match v with
  | VUndefined => lit "undefined"
  | VNull => lit "null"
  | VBool true => lit "true"
  | VBool false => lit "false"
  | VNum n => lit (NilZero.string_of_int (Z.to_int n))
  | VStr s => s
  | VFun _ source => source
  | VObj _ => lit "[object Object]"
  end.

Fixpoint lookup (o : object) (k : string) : option value :=
  match o with
  | [] => None
  | (k', v) :: rest => if String.eqb k' k then Some v else lookup rest k
  end.

(** [o[k] = v] on an object used as a map. *)
Fixpoint set_prop (o : object) (k : string) (v : value) : object :=
  match o with
  | [] => [(k, v)]
  | (k', v') :: rest =>
      if String.eqb k' k then (k, v) :: rest else (k', v') :: set_prop rest k v
  end.

(** Property read [v.k].  Every read in the class follows a truthiness
    check of [v], so [v] is never [undefined] or [null] there; a missing
    property reads as [undefined]. *)
Definition get_prop (v : value) (k : string) : value :=
  match v with
  | VObj o => match lookup o k with Some x => x | None => VUndefined end
  | _ => VUndefined
  end.

(** ** Errors and the effect monad *)

Inductive error : Type :=
| ReferenceError (message : jsstring)
| ArgumentError (message : jsstring)
| URIError.

(** The error taxonomy: a required input that is entirely absent is
    reported with [ReferenceError] (missing-configuration,
    missing-argument); an input that is present but unusable is reported
    with [ArgumentError] (invalid-configuration, invalid-argument). *)
Definition missing_condition (e : error) : bool :=
  match e with ReferenceError _ => true | _ => false end.

Definition invalid_condition (e : error) : bool :=
  match e with ArgumentError _ => true | _ => false end.

Inductive outcome (A : Type) : Type :=
| Returned (a : A)
| Thrown (e : error).
Arguments Returned {A} a.
Arguments Thrown {A} e.

(** A computation over a state [S] that returns or throws. *)
Definition M (S A : Type) : Type := S -> outcome A * S.

Definition ret {S A} (a : A) : M S A := fun s => (Returned a, s).

Definition throw {S A} (e : error) : M S A := fun s => (Thrown e, s).

Definition bind {S A B} (m : M S A) (k : A -> M S B) : M S B :=
  fun s =>
    match m s with
    | (Returned a, s') => k a s'
    | (Thrown e, s') => (Thrown e, s')
    end.

Notation "x <- m ;; k" := (bind m (fun x => k))
  (at level 61, m at next level, right associativity).
Notation "' pat <- m ;; k" := (bind m (fun x => match x with pat => k end))
  (at level 61, pat pattern, m at next level, right associativity).

(** ** The transport double *)

(** What the transport reports to a completion closure. *)
Record response : Type := {
  err : value;
  result : value;
  httpResponse : value
}.

(** What a completion closure does with the caller's handler. *)
Inductive completion : Type :=
| Discarded
| Called (handler : value) (args : list value)
| NotCallable (handler : value).

Definition call_handler (f : value) (args : list value) : completion :=
  if String.eqb (typeof f) "function" then Called f args else NotCallable f.

Record api_call : Type := {
  method : string;
  path : jsstring;
  headers : object;
  body : value;
  done : response -> completion
}.

(** The log of requests handed to the transport. *)
Definition wire := list api_call.

Definition executeApiCall (method : string) (path : jsstring)
    (headers : object) (body : value) (done : response -> completion)
  : M wire unit :=
  fun log => (Returned tt, log ++ [Build_api_call method path headers body done]).

(** The call [encodeURIComponent(v)]: the argument is converted to a
    string, and a string that cannot be encoded throws [URIError]. *)
Definition uri_component (v : value) : M wire jsstring :=
  match encodeURIComponent (ToString v) with
  | Some e => ret e
  | None => throw URIError
  end.

(** ** The class [DeviceEnrollment] *)

Definition _enrollmentGroupsPrefix : jsstring := lit "/enrollmentGroups/".
Definition _enrollmentsPrefix : jsstring := lit "/enrollments/".
Definition _registrationsPrefix : jsstring := lit "/registrations/".

Definition _versionQueryString : jsstring := lit "?api-version=2017-08-31-preview".

(** The completion closure of [_createOrUpdate] and [bulkOperation]. *)
Definition relay (callback : value) (r : response) : completion :=
  if truthy callback then
    if truthy (err r) then call_handler callback [err r]
    else call_handler callback [VNull; result r; httpResponse r]
  else Discarded.

(** The completion closure of [_delete]. *)
Definition relay_delete (suppliedCallback : value) (r : response) : completion :=
  if truthy suppliedCallback then
    if truthy (err r) then call_handler suppliedCallback [err r]
    else call_handler suppliedCallback [VNull]
  else Discarded.

(** The completion closure of [_get]: the handler is called unguarded. *)
Definition relay_get (getCallback : value) (r : response) : completion :=
  if truthy (err r) then call_handler getCallback [err r]
  else call_handler getCallback [VNull; result r; httpResponse r].

(** [_getEnrollFunc] hands [done] to the transport as it is. *)
Definition forward (done : value) (r : response) : completion :=
  call_handler done [err r; result r; httpResponse r].

Definition bulkOperation (bulkOperation callback : value) : M wire unit :=
  if negb (truthy bulkOperation) then
    throw (ReferenceError (lit
      "Required bulkOperation property was null or undefined when calling bulkOperation."))
  else
    let path := _enrollmentsPrefix ++ _versionQueryString in
    let httpHeaders :=
      [("Accept", VStr (lit "application/json"));
       ("Content-Type", VStr (lit "application/json; charset=utf-8"))]%string in
    executeApiCall "POST" path httpHeaders bulkOperation (relay callback).

Definition _getEnrollFunc (prefix : jsstring) (querySpecification pageSize : value)
    (continuationToken done : value) : M wire unit :=
  let path := prefix ++ lit "query" ++ _versionQueryString in
  let headers :=
    [("Accept", VStr (lit "application/json"));
     ("Content-Type", VStr (lit "application/json; charset=utf-8"))]%string in
  let headers :=
    if truthy continuationToken
    then set_prop headers "x-ms-continuation" continuationToken
    else headers in
  let headers :=
    if truthy pageSize
    then set_prop headers "x-ms-max-item-count" pageSize
    else headers in
  executeApiCall "POST" path headers querySpecification (forward done).

Definition _createOrUpdate (endpointPrefix : jsstring)
    (enrollment callback : value) : M wire unit :=
  if negb (truthy enrollment) then
    throw (ReferenceError (lit
      "Required parameter enrollment was null or undefined when calling createOrUpdate."))
  else
    let id :=
      if jsstring_eqb endpointPrefix _enrollmentGroupsPrefix
      then get_prop enrollment "enrollmentGroupId"
      else get_prop enrollment "registrationId" in
    if negb (truthy id) then
      throw (ArgumentError (lit
        "Required id property was null or undefined when calling createOrUpdate."))
    else
      encoded <- uri_component id ;;
      let path := endpointPrefix ++ encoded ++ _versionQueryString in
      let httpHeaders :=
        [("Accept", VStr (lit "application/json"));
         ("Content-Type", VStr (lit "application/json; charset=utf-8"))]%string in
      executeApiCall "PUT" path httpHeaders enrollment (relay callback).

Definition _delete (endpointPrefix : jsstring)
    (enrollmentOrIdOrRegistration etagOrCallback deleteCallback : value)
  : M wire unit :=
  if negb (truthy enrollmentOrIdOrRegistration) then
    throw (ReferenceError
      (lit "Required parameter '" ++ ToString enrollmentOrIdOrRegistration
       ++ lit "' was null or undefined when calling delete."))
  else
    '(id, ifMatch, suppliedCallback) <-
      (if String.eqb (typeof enrollmentOrIdOrRegistration) "string" then
         let id := enrollmentOrIdOrRegistration in
         if negb (truthy etagOrCallback) then
           ret (id, VUndefined, VUndefined)
         else if String.eqb (typeof etagOrCallback) "string" then
           let ifMatch := etagOrCallback in
           if negb (truthy deleteCallback) then
             ret (id, ifMatch, VUndefined)
           else if negb (String.eqb (typeof deleteCallback) "function") then
             throw (ArgumentError (lit
               "Third argument of this delete method must be a function."))
           else ret (id, ifMatch, deleteCallback)
         else if String.eqb (typeof etagOrCallback) "function" then
           ret (id, VUndefined, etagOrCallback)
         else
           throw (ArgumentError (lit
             "Second argument of this delete method must be a string or function."))
       else
         id <-
           (if jsstring_eqb endpointPrefix _enrollmentsPrefix then
              if negb (truthy (get_prop enrollmentOrIdOrRegistration "registrationId")) then
                throw (ArgumentError (lit
                  "Required property 'registrationId' was null or undefined when calling delete."))
              else ret (get_prop enrollmentOrIdOrRegistration "registrationId")
            else if jsstring_eqb endpointPrefix _enrollmentGroupsPrefix then
              if negb (truthy (get_prop enrollmentOrIdOrRegistration "enrollmentGroupId")) then
                throw (ArgumentError (lit
                  "Required property 'enrollmentGroupId' was null or undefined when calling delete."))
              else ret (get_prop enrollmentOrIdOrRegistration "enrollmentGroupId")
            else if jsstring_eqb endpointPrefix _registrationsPrefix then
              if negb (truthy (get_prop enrollmentOrIdOrRegistration "registrationId")) then
                throw (ArgumentError (lit
                  "Required property 'registrationId' was null or undefined when calling delete."))
              else ret (get_prop enrollmentOrIdOrRegistration "registrationId")
            else
              throw (ArgumentError (lit "Invalid path specified for delete operation."))) ;;
         suppliedCallback <-
           (if negb (truthy etagOrCallback) then ret VUndefined
            else if negb (String.eqb (typeof etagOrCallback) "function") then
              throw (ArgumentError (lit
                "The second argument of this delete function if present MUST be a function."))
            else ret etagOrCallback) ;;
         if truthy (get_prop enrollmentOrIdOrRegistration "etag")
         then ret (id, get_prop enrollmentOrIdOrRegistration "etag", suppliedCallback)
         else ret (id, VUndefined, suppliedCallback)) ;;
    encoded <- uri_component id ;;
    let path := endpointPrefix ++ encoded ++ _versionQueryString in
    let httpHeaders : object := [] in
    let httpHeaders :=
      if truthy ifMatch then set_prop httpHeaders "If-Match" ifMatch
      else httpHeaders in
    executeApiCall "DELETE" path httpHeaders VNull (relay_delete suppliedCallback).

Definition _get (endpointPrefix : jsstring) (id getCallback : value)
  : M wire unit :=
  if negb (truthy id) then
    throw (ReferenceError
      (lit "Required parameter '" ++ ToString id
       ++ lit "' was null or undefined when calling get."))
  else
    encoded <- uri_component id ;;
    let path := endpointPrefix ++ encoded ++ _versionQueryString in
    let httpHeaders := [("Accept", VStr (lit "application/json"))]%string in
    executeApiCall "GET" path httpHeaders VNull (relay_get getCallback).

(** *** Public operations *)

Definition createOrUpdateIndividualEnrollment (enrollment callback : value) :=
  _createOrUpdate _enrollmentsPrefix enrollment callback.

Definition deleteIndividualEnrollment
    (enrollmentOrId etagOrCallback deleteCallback : value) :=
  _delete _enrollmentsPrefix enrollmentOrId etagOrCallback deleteCallback.

Definition getIndividualEnrollment (id getCallback : value) :=
  _get _enrollmentsPrefix id getCallback.

Definition getDeviceRegistrationStatus (id callback : value) :=
  _get _registrationsPrefix id callback.

Definition createOrUpdateEnrollmentGroup (enrollmentGroup callback : value) :=
  _createOrUpdate _enrollmentGroupsPrefix enrollmentGroup callback.

Definition deleteEnrollmentGroup
    (enrollmentGroupOrId etagOrCallback deleteCallback : value) :=
  _delete _enrollmentGroupsPrefix enrollmentGroupOrId etagOrCallback deleteCallback.

Definition getEnrollmentGroup (id getCallback : value) :=
  _get _enrollmentGroupsPrefix id getCallback.

Definition deleteDeviceRegistrationStatus
    (idOrRegistrationStatus etagOrCallback deleteCallback : value) :=
  _delete _registrationsPrefix idOrRegistrationStatus etagOrCallback deleteCallback.

(** The page functions the three query cursors are built on. *)
Definition createQueryIndividualEnrollment (querySpecification pageSize : value) :=
  _getEnrollFunc _enrollmentsPrefix querySpecification pageSize.

Definition createQueryEnrollmentGroup (querySpecification pageSize : value) :=
  _getEnrollFunc _enrollmentGroupsPrefix querySpecification pageSize.

Definition createQueryDeviceRegistrationStatus (querySpecification pageSize : value) :=
  _getEnrollFunc _registrationsPrefix querySpecification pageSize.

(** *** Construction

    [package.json] supplies the user-agent string of a transport the
    constructor builds itself.  The constructor runs over the list of
    [RestApiClient] instantiations made so far. *)

Record package : Type := {
  name : jsstring;
  version : jsstring
}.

Inductive transport : Type :=
| Supplied (restApiClient : value)
| Created (serial : nat).

Record DeviceEnrollment : Type := {
  _config : value;
  _restApiClient : transport
}.

Definition factory := list (value * jsstring).

Definition new_RestApiClient (config : value) (userAgent : jsstring)
  : M factory transport :=
  fun made => (Returned (Created (List.length made)), made ++ [(config, userAgent)]).

Definition constructor (packageJson : package) (config restApiClient : value)
  : M factory DeviceEnrollment :=
  if negb (truthy config) then
    throw (ReferenceError
      (lit "The 'config' parameter cannot be '" ++ ToString config ++ lit "'"))
  else if negb (truthy (get_prop config "host"))
          || negb (truthy (get_prop config "sharedAccessSignature")) then
    throw (ArgumentError (lit
      "The 'config' argument is missing either the host or the sharedAccessSignature property"))
  else
    client <-
      (if truthy restApiClient then ret (Supplied restApiClient)
       else new_RestApiClient config
              (name packageJson ++ lit "/" ++ version packageJson)) ;;
    ret {| _config := config; _restApiClient := client |}.

(** ** Vocabulary of the statements *)

(** The requests an operation hands to a fresh transport. *)
Definition requests (m : M wire unit) : list api_call := snd (m []).

(** The five kinds of request the class builds. *)
Inductive operation : Type :=
| CreateOrUpdate (endpointPrefix : jsstring) (enrollment callback : value)
| Get (endpointPrefix : jsstring) (id getCallback : value)
| Delete (endpointPrefix : jsstring)
         (enrollmentOrIdOrRegistration etagOrCallback deleteCallback : value)
| Bulk (bulkOperation callback : value)
| QueryPage (prefix : jsstring) (querySpecification pageSize : value)
            (continuationToken done : value).

Definition run (o : operation) : M wire unit :=
  match o with
  | CreateOrUpdate p e cb => _createOrUpdate p e cb
  | Get p id cb => _get p id cb
  | Delete p x a2 a3 => _delete p x a2 a3
  | Bulk op cb => bulkOperation op cb
  | QueryPage p q n tok d => _getEnrollFunc p q n tok d
  end.

Definition is_delete (o : operation) : bool :=
  match o with Delete _ _ _ _ => true | _ => false end.

(** The payload an operation passes as the request body; fetch and
    delete pass [null]. *)
Definition payload (o : operation) : option value :=
  match o with
  | CreateOrUpdate _ e _ => Some e
  | Bulk op _ => Some op
  | QueryPage _ q _ _ _ => Some q
  | Get _ _ _ | Delete _ _ _ _ => None
  end.

Definition application_json : value := VStr (lit "application/json").
Definition application_json_utf8 : value :=
  VStr (lit "application/json; charset=utf-8").

(** The identifier field [_createOrUpdate] reads for a prefix. *)
Definition entity_id (endpointPrefix : jsstring) (entity : value) : value :=
  if jsstring_eqb endpointPrefix _enrollmentGroupsPrefix
  then get_prop entity "enrollmentGroupId"
  else get_prop entity "registrationId".

(** The three prefixes [_delete] accepts with an entity object. *)
Definition known_prefix (p : jsstring) : bool :=
  jsstring_eqb p _enrollmentsPrefix
  || jsstring_eqb p _enrollmentGroupsPrefix
  || jsstring_eqb p _registrationsPrefix.

(** What [_delete] accepts after a string first argument: nothing, an
    entity tag followed by nothing or a handler, or a handler. *)
Definition accepted_after_id (a2 a3 : value) : bool :=
  negb (truthy a2)
  || (String.eqb (typeof a2) "string"
      && (negb (truthy a3) || String.eqb (typeof a3) "function"))
  || String.eqb (typeof a2) "function".

(** What [_delete] accepts after an entity object: nothing or a handler. *)
Definition accepted_after_entity (a2 : value) : bool :=
  negb (truthy a2) || String.eqb (typeof a2) "function".

(** A second argument that [_delete] takes as an entity tag. *)
Definition is_etag (a2 : value) : bool :=
  truthy a2 && String.eqb (typeof a2) "string".

(** Code units that would end or split the identifier segment of a path:
    slash, question mark and space. *)
Definition breaks_segment (c : Z) : bool :=
  (c =? 47) || (c =? 63) || (c =? 32).

Definition no_surrogate (c : Z) : bool :=
  negb (is_lead_surrogate c) && negb (is_trail_surrogate c).

(** A code unit [encodeURIComponent] may emit: an unreserved one or the
    percent sign. *)
Definition uri_safe (c : Z) : bool := uriUnreserved c || (c =? 37).

(** The request [_delete] issues for a resolved intent. *)
Definition delete_request (prefix encoded : jsstring) (ifMatch : option value)
    (suppliedCallback : value) : api_call :=
  {| method := "DELETE";
     path := prefix ++ encoded ++ _versionQueryString;
     headers := match ifMatch with
                | Some etag => [("If-Match", etag)]%string
                | None => []
                end;
     body := VNull;
     done := relay_delete suppliedCallback |}.

(** The conditional-write header of a request, if it carries one. *)
Definition if_match (c : api_call) : option value :=
  lookup (headers c) "If-Match".

(** ** The rest of the class and its neighbours *)

(** [DeviceEnrollment.fromConnectionString].  [ConnectionString.parse],
    [SharedAccessSignature.create] and [Date.now] belong to other
    packages: the first two are taken as functions that return or throw,
    the clock reading as a number.  The instance is always constructed
    without a transport argument. *)
Definition fromConnectionString (packageJson : package)
    (parse : value -> outcome object)
    (create : value -> value -> value -> value -> outcome value)
    (now : Z) (value_ : value) : M factory DeviceEnrollment :=
  if negb (truthy value_) then
    throw (ReferenceError (lit "value is '" ++ ToString value_ ++ lit "'"))
  else
    cn <- (fun made => (parse value_, made)) ;;
    sharedAccessSignature <-
      (fun made =>
         (create (get_prop (VObj cn) "HostName")
                 (get_prop (VObj cn) "SharedAccessKeyName")
                 (get_prop (VObj cn) "SharedAccessKey")
                 (VNum now), made)) ;;
    let config :=
      VObj [("host", get_prop (VObj cn) "HostName");
            ("sharedAccessSignature", sharedAccessSignature)]%string in
    constructor packageJson config VUndefined.

(** The websocket transport of the device client: [AmqpWs] only overrides
    the connection URI, which it reads off the configuration its base
    class keeps in [this._config]. *)
Module AmqpWs.

Definition _getConnectionUri (this_config : object) : jsstring :=
  lit "wss://" ++ ToString (get_prop (VObj this_config) "host")
  ++ lit ":443/$iothub/websocket".

End AmqpWs.

(** ** Vocabulary of the further statements *)

(** A UTF-16 code unit. *)
Definition code_unit (c : Z) : bool := (0 <=? c) && (c <? 65536).

Definition is_ascii (c : Z) : bool := (0 <=? c) && (c <? 128).

(** Every surrogate code unit of the string is part of a lead/trail pair. *)
Fixpoint well_paired (s : jsstring) : bool :=
  match s with
  | [] => true
  | c :: rest =>
      if is_trail_surrogate c then false
      else if is_lead_surrogate c then
        match rest with
        | d :: rest' => is_trail_surrogate d && well_paired rest'
        | [] => false
        end
      else well_paired rest
  end.

(** The HTTP method of each kind of request. *)
Definition verb (o : operation) : string :=
  match o with
  | CreateOrUpdate _ _ _ => "PUT"
  | Get _ _ _ => "GET"
  | Delete _ _ _ _ => "DELETE"
  | Bulk _ _ | QueryPage _ _ _ _ _ => "POST"
  end.

(** The endpoint prefix an operation builds its path on. *)
Definition endpoint (o : operation) : jsstring :=
  match o with
  | CreateOrUpdate p _ _ | Get p _ _ | Delete p _ _ _ | QueryPage p _ _ _ _ => p
  | Bulk _ _ => _enrollmentsPrefix
  end.

(** The headers of a query page beyond content negotiation. *)
Definition paging_headers (continuationToken pageSize : value) : object :=
  (if truthy continuationToken
   then [("x-ms-continuation", continuationToken)]%string else [])
  ++ (if truthy pageSize
      then [("x-ms-max-item-count", pageSize)]%string else []).

(** How the first code unit (or surrogate pair) of a string is encoded. *)
Inductive encoded_head (c : Z) (rest : jsstring) (e : jsstring) : Prop :=
| head_plain e' :
    uriUnreserved c = true ->
    encodeURIComponent rest = Some e' -> e = c :: e' ->
    encoded_head c rest e
| head_escaped e' :
    uriUnreserved c = false ->
    is_trail_surrogate c = false -> is_lead_surrogate c = false ->
    encodeURIComponent rest = Some e' -> e = percent_encode c ++ e' ->
    encoded_head c rest e
| head_pair d rest' e' :
    uriUnreserved c = false ->
    is_lead_surrogate c = true -> is_trail_surrogate d = true ->
    rest = d :: rest' ->
    encodeURIComponent rest' = Some e' ->
    e = percent_encode (pair_code_point c d) ++ e' ->
    encoded_head c rest e.

(** The identifier string a fetch, delete or create-or-update is about:
    the string argument, or the identifier field of the entity object. *)
Definition addressed (o : operation) : option jsstring :=
  match o with
  | Get _ (VStr id) _ | Delete _ (VStr id) _ _ => Some id
  | Delete p (VObj props) _ _ | CreateOrUpdate p (VObj props) _ =>
      match entity_id p (VObj props) with
      | VStr id => Some id
      | _ => None
      end
  | _ => None
  end.

(** * Properties *)

(** Case analysis over the branches of an operation. *)
Ltac split_run :=
  repeat (cbv beta iota;
          match goal with
          | |- context [if ?b then _ else _] => destruct b eqn:?
          | |- context [match encodeURIComponent ?s with _ => _ end] =>
              destruct (encodeURIComponent s) eqn:?
          end);
  cbv beta iota.

(** ** Strings and [encodeURIComponent] *)

Lemma jsstring_eqb_eq a b : jsstring_eqb a b = true <-> a = b.
Proof.
  unfold jsstring_eqb; destruct (list_eq_dec Z.eq_dec a b); split; congruence.
Qed.

Lemma jsstring_eqb_refl a : jsstring_eqb a a = true.
Proof. now apply jsstring_eqb_eq. Qed.

Example encode_plain :
  encodeURIComponent (lit "r1") = Some (lit "r1").
Proof. reflexivity. Qed.

Example encode_reserved :
  encodeURIComponent (lit "a/b?c d") = Some (lit "a%2Fb%3Fc%20d").
Proof. reflexivity. Qed.

(* U+00E9 and U+20AC, then the pair D83D DE00 (U+1F600). *)
Example encode_non_ascii :
  encodeURIComponent [233; 8364; 55357; 56832]
  = Some (lit "%C3%A9%E2%82%AC%F0%9F%98%80").
Proof. reflexivity. Qed.

Example encode_lone_surrogate : encodeURIComponent [55357] = None.
Proof. reflexivity. Qed.

Lemma hex_digit_unreserved n : uriUnreserved (hex_digit n) = true.
Proof.
  unfold hex_digit.
  assert (B : 0 <= Z.land n 15 < 16).
  { change 15 with (Z.ones 4). rewrite Z.land_ones by lia.
    apply Z.mod_pos_bound. reflexivity. }
  set (d := Z.land n 15) in *.
  assert (C : d = 0 \/ d = 1 \/ d = 2 \/ d = 3 \/ d = 4 \/ d = 5 \/ d = 6
              \/ d = 7 \/ d = 8 \/ d = 9 \/ d = 10 \/ d = 11 \/ d = 12
              \/ d = 13 \/ d = 14 \/ d = 15) by lia.
  repeat (destruct C as [C | C]; [rewrite C; reflexivity |]).
  rewrite C; reflexivity.
Qed.

Lemma percent_octet_safe b : Forall (fun c => uri_safe c = true) (percent_octet b).
Proof.
  unfold percent_octet, uri_safe.
  repeat constructor; rewrite ?hex_digit_unreserved; reflexivity.
Qed.

Lemma percent_encode_safe cp :
  Forall (fun c => uri_safe c = true) (percent_encode cp).
Proof.
  unfold percent_encode. apply Forall_flat_map, Forall_forall.
  intros b _. apply percent_octet_safe.
Qed.

Lemma encodeURIComponent_cons c rest :
  encodeURIComponent (c :: rest) =
  if uriUnreserved c then option_map (cons c) (encodeURIComponent rest)
  else if is_trail_surrogate c then None
  else if is_lead_surrogate c then
    match rest with
    | d :: rest' =>
        if is_trail_surrogate d
        then option_map (app (percent_encode (pair_code_point c d)))
                        (encodeURIComponent rest')
        else None
    | [] => None
    end
  else option_map (app (percent_encode c)) (encodeURIComponent rest).
Proof. reflexivity. Qed.

Lemma encodeURIComponent_safe_step s :
  (forall e, encodeURIComponent s = Some e ->
             Forall (fun c => uri_safe c = true) e)
  /\ (forall c e, encodeURIComponent (c :: s) = Some e ->
                  Forall (fun c => uri_safe c = true) e).
Proof.
  induction s as [| d s [IHs IHds]].
  - split; [intros e E; inversion E; constructor |].
    intros c e; simpl.
    destruct (uriUnreserved c) eqn:U.
    + intros E; inversion E; subst. constructor; [| constructor].
      unfold uri_safe; now rewrite U.
    + destruct (is_trail_surrogate c); [discriminate |].
      destruct (is_lead_surrogate c); [discriminate |].
      intros E; inversion E; subst. rewrite app_nil_r.
      apply percent_encode_safe.
  - split; [exact (IHds d) |].
    intros c e E. rewrite encodeURIComponent_cons in E.
    destruct (uriUnreserved c) eqn:U.
    + destruct (encodeURIComponent (d :: s)) as [t |] eqn:T; [| discriminate].
      inversion E; subst. constructor; [unfold uri_safe; now rewrite U |].
      now apply (IHds d).
    + destruct (is_trail_surrogate c); [discriminate |].
      destruct (is_lead_surrogate c).
      * destruct (is_trail_surrogate d); [| discriminate].
        destruct (encodeURIComponent s) as [t |] eqn:T; [| discriminate].
        inversion E; subst. apply Forall_app; split;
          [apply percent_encode_safe | now apply IHs].
      * destruct (encodeURIComponent (d :: s)) as [t |] eqn:T; [| discriminate].
        inversion E; subst. apply Forall_app; split;
          [apply percent_encode_safe | now apply (IHds d)].
Qed.

Lemma encodeURIComponent_safe s e :
  encodeURIComponent s = Some e -> Forall (fun c => uri_safe c = true) e.
Proof. apply encodeURIComponent_safe_step. Qed.

Lemma uri_safe_keeps_segment c : uri_safe c = true -> breaks_segment c = false.
Proof.
  intros S. unfold breaks_segment.
  destruct (Z.eqb_spec c 47) as [-> |]; [vm_compute in S; discriminate |].
  destruct (Z.eqb_spec c 63) as [-> |]; [vm_compute in S; discriminate |].
  destruct (Z.eqb_spec c 32) as [-> |]; [vm_compute in S; discriminate |].
  reflexivity.
Qed.

Lemma encodeURIComponent_segment s e :
  encodeURIComponent s = Some e -> existsb breaks_segment e = false.
Proof.
  intros E.
  pose proof (encodeURIComponent_safe _ _ E) as F. clear E.
  induction F as [| c t S _ IH]; [reflexivity |].
  simpl. rewrite (uri_safe_keeps_segment _ S). exact IH.
Qed.

(** An identifier without surrogate code units is always encodable. *)
Lemma encodeURIComponent_defined s :
  forallb no_surrogate s = true -> exists e, encodeURIComponent s = Some e.
Proof.
  induction s as [| c s IH]; [now exists [] |].
  intros H. apply andb_prop in H as [N F].
  destruct (IH F) as [t T].
  apply andb_prop in N as [L R].
  apply negb_true_iff in L, R.
  rewrite encodeURIComponent_cons, L, R, T.
  destruct (uriUnreserved c); eexists; reflexivity.
Qed.

(** ** Objects used as maps *)

Lemma lookup_set_prop_same o k v : lookup (set_prop o k v) k = Some v.
Proof.
  induction o as [| [k' v'] o IH]; simpl.
  - now rewrite String.eqb_refl.
  - destruct (String.eqb k' k) eqn:E; simpl.
    + now rewrite String.eqb_refl.
    + now rewrite E.
Qed.

Lemma lookup_set_prop_other o k k' v :
  k <> k' -> lookup (set_prop o k v) k' = lookup o k'.
Proof.
  intros N. induction o as [| [k0 v0] o IH]; simpl.
  - destruct (String.eqb_spec k k'); [contradiction | reflexivity].
  - destruct (String.eqb_spec k0 k) as [-> |]; simpl.
    + destruct (String.eqb_spec k k'); [contradiction | reflexivity].
    + destruct (String.eqb k0 k'); [reflexivity | exact IH].
Qed.

(** ** Running the operations *)

Lemma truthy_string s : s <> [] -> truthy (VStr s) = true.
Proof. destruct s; [congruence | reflexivity]. Qed.

Lemma truthy_function f : typeof f = "function"%string -> truthy f = true.
Proof. destruct f; simpl; try discriminate; reflexivity. Qed.

Lemma uri_component_string s e log :
  encodeURIComponent s = Some e -> uri_component (VStr s) log = (Returned e, log).
Proof. unfold uri_component; simpl; intros ->; reflexivity. Qed.

Lemma uri_component_undefined s log :
  encodeURIComponent s = None -> uri_component (VStr s) log = (Thrown URIError, log).
Proof. unfold uri_component; simpl; intros ->; reflexivity. Qed.

Section DeleteById.

Variables (prefix id e : jsstring) (log : wire).
Hypothesis id_present : id <> [].
Hypothesis id_encodes : encodeURIComponent id = Some e.

(** An absent (falsy) second argument: unconditional, nobody to tell. *)
Lemma delete_id_alone a2 a3 :
  truthy a2 = false ->
  _delete prefix (VStr id) a2 a3 log
  = (Returned tt, log ++ [delete_request prefix e None VUndefined]).
Proof.
  intros A. unfold _delete, bind.
  rewrite (truthy_string _ id_present), A. cbn -[lit encodeURIComponent].
  rewrite (uri_component_string _ _ log id_encodes). reflexivity.
Qed.

(** A non-empty string second argument is the entity tag. *)
Lemma delete_id_etag etag a3 :
  etag <> [] ->
  truthy a3 = false \/ typeof a3 = "function"%string ->
  _delete prefix (VStr id) (VStr etag) a3 log
  = (Returned tt,
     log ++ [delete_request prefix e (Some (VStr etag))
               (if truthy a3 then a3 else VUndefined)]).
Proof.
  intros T A. destruct etag as [| c t]; [congruence |]. clear T.
  unfold _delete, bind.
  rewrite (truthy_string _ id_present). cbn -[lit encodeURIComponent].
  destruct A as [A | A].
  - rewrite A. cbn -[lit encodeURIComponent].
    rewrite (uri_component_string _ _ log id_encodes). reflexivity.
  - rewrite (truthy_function _ A), A. cbn -[lit encodeURIComponent].
    rewrite (uri_component_string _ _ log id_encodes). reflexivity.
Qed.

(** A handler as second argument: unconditional, the handler is told. *)
Lemma delete_id_handler h a3 :
  typeof h = "function"%string ->
  _delete prefix (VStr id) h a3 log
  = (Returned tt, log ++ [delete_request prefix e None h]).
Proof.
  intros F. unfold _delete, bind.
  rewrite (truthy_string _ id_present), (truthy_function _ F), F.
  cbn -[lit encodeURIComponent].
  rewrite (uri_component_string _ _ log id_encodes). reflexivity.
Qed.

End DeleteById.

Lemma known_prefix_cases p :
  known_prefix p = true ->
  p = _enrollmentsPrefix \/ p = _enrollmentGroupsPrefix \/ p = _registrationsPrefix.
Proof.
  unfold known_prefix. intros H.
  apply orb_prop in H as [H | H]; [apply orb_prop in H as [H | H] |];
    apply jsstring_eqb_eq in H; auto.
Qed.

Section DeleteByEntity.

Variables (prefix id e : jsstring) (props : object) (log : wire).
Hypothesis prefix_known : known_prefix prefix = true.
Hypothesis id_field : entity_id prefix (VObj props) = VStr id.
Hypothesis id_present : id <> [].
Hypothesis id_encodes : encodeURIComponent id = Some e.

(** An entity object: the tag comes from its own [etag] field, the
    second argument can only be a handler. *)
Lemma delete_entity a2 a3 :
  accepted_after_entity a2 = true ->
  _delete prefix (VObj props) a2 a3 log
  = (Returned tt,
     log ++ [delete_request prefix e
               (if truthy (get_prop (VObj props) "etag")
                then Some (get_prop (VObj props) "etag") else None)
               (if truthy a2 then a2 else VUndefined)]).
Proof.
  intros A.
  assert (A' : truthy a2 = false
               \/ truthy a2 = true /\ typeof a2 = "function"%string).
  { unfold accepted_after_entity in A.
    destruct (truthy a2); [right | now left].
    split; [reflexivity |]. now apply String.eqb_eq. }
  unfold entity_id in id_field.
  unfold _delete, bind.
  change (truthy (VObj props)) with true.
  change (String.eqb (typeof (VObj props)) "string") with false.
  destruct (known_prefix_cases _ prefix_known) as [P | [P | P]];
    rewrite P in id_field |- *;
    match type of id_field with
    | context [jsstring_eqb ?a ?b] =>
        let v := eval vm_compute in (jsstring_eqb a b) in
        change (jsstring_eqb a b) with v in id_field
    end;
    cbv beta iota in id_field;
    repeat match goal with
    | |- context [jsstring_eqb ?a ?b] =>
        let v := eval vm_compute in (jsstring_eqb a b) in
        change (jsstring_eqb a b) with v
    end;
    cbv beta iota;
    rewrite id_field, (truthy_string _ id_present);
    (destruct A' as [T2 | [T2 F]]; [rewrite T2 | rewrite T2, F]);
    destruct (truthy (get_prop (VObj props) "etag")) eqn:T;
    cbv beta iota delta [negb ret String.eqb Ascii.eqb Bool.eqb];
    rewrite (uri_component_string _ _ log id_encodes);
    cbv beta iota; rewrite ?T; reflexivity.
Qed.

End DeleteByEntity.

(** ** Every run either throws before the transport is touched or hands
    it exactly one request *)

Lemma delete_runs prefix x a2 a3 log :
  (exists failure, _delete prefix x a2 a3 log = (Thrown failure, log))
  \/ (exists encoded ifMatch suppliedCallback,
        _delete prefix x a2 a3 log
        = (Returned tt,
           log ++ [delete_request prefix encoded ifMatch suppliedCallback])).
Proof.
  unfold _delete, bind, uri_component, ret, throw, executeApiCall, delete_request.
  split_run;
    first [ left; eexists; reflexivity
          | right; eexists _, None, _; reflexivity
          | right; eexists _, (Some _), _; reflexivity ].
Qed.

Lemma run_frame o log :
  run o log = (fst (run o []), log ++ requests (run o)).
Proof.
  destruct o; unfold requests, run, _createOrUpdate, _get, _delete,
    bulkOperation, _getEnrollFunc, bind, uri_component, ret, throw,
    executeApiCall;
    split_run; cbn [fst snd app]; rewrite ?app_nil_r; reflexivity.
Qed.

Lemma run_at_most_one o :
  requests (run o) = [] \/ exists c, requests (run o) = [c].
Proof.
  destruct o; unfold requests, run, _createOrUpdate, _get, _delete,
    bulkOperation, _getEnrollFunc, bind, uri_component, ret, throw,
    executeApiCall;
    split_run; cbn [fst snd app]; eauto.
Qed.

(** A run that throws has issued nothing. *)
Lemma run_thrown_silent o failure log log' :
  run o log = (Thrown failure, log') -> log' = log.
Proof.
  destruct o; unfold run, _createOrUpdate, _get, _delete,
    bulkOperation, _getEnrollFunc, bind, uri_component, ret, throw,
    executeApiCall;
    split_run; intros E; inversion E; reflexivity.
Qed.

(** A delete by identifier with accepted arguments issues the request of
    some resolved intent. *)
Lemma delete_by_id_issues prefix id e a2 a3 log :
  id <> [] ->
  encodeURIComponent id = Some e ->
  accepted_after_id a2 a3 = true ->
  exists ifMatch suppliedCallback,
    _delete prefix (VStr id) a2 a3 log
    = (Returned tt, log ++ [delete_request prefix e ifMatch suppliedCallback]).
Proof.
  intros Hid Henc Hacc.
  unfold accepted_after_id in Hacc.
  destruct (truthy a2) eqn:T2.
  - destruct (String.eqb (typeof a2) "string") eqn:S2.
    + destruct a2; try discriminate S2.
      assert (Hs : s <> []) by (destruct s; [discriminate T2 | discriminate]).
      do 2 eexists. apply (delete_id_etag _ _ _ _ Hid Henc _ _ Hs).
      simpl in Hacc. rewrite orb_false_r in Hacc.
      destruct (truthy a3); [right; now apply String.eqb_eq | now left].
    + simpl in Hacc. apply String.eqb_eq in Hacc.
      do 2 eexists. apply (delete_id_handler _ _ _ _ Hid Henc _ _ Hacc).
  - do 2 eexists. apply (delete_id_alone _ _ _ _ Hid Henc _ _ T2).
Qed.

(** ** Delete: resolution of the conditional-write header *)

(** C1, amended.  The [If-Match] header of a delete is resolved as
    follows, for every prefix, every non-empty encodable identifier [id]
    and every trailing argument [cb] that is absent or a handler:
    an identifier alone attaches no [If-Match]; an identifier with a
    NON-EMPTY string [etag] attaches [If-Match: etag]; an identifier with
    a handler [h] attaches no [If-Match] and [h] is the handler the
    completion calls; an entity object whose [etag] field is a non-empty
    string [x] attaches [If-Match: x]; an entity object without an [etag]
    field attaches no [If-Match].  In each case exactly one DELETE is
    issued. *)
Theorem delete_if_match_table :
  forall (prefix id e etag x : jsstring) (h cb ignored : value)
         (tagged untagged : object) (log : wire),
    id <> [] ->
    encodeURIComponent id = Some e ->
    etag <> [] ->
    typeof h = "function"%string ->
    accepted_after_entity cb = true ->
    known_prefix prefix = true ->
    entity_id prefix (VObj tagged) = VStr id ->
    get_prop (VObj tagged) "etag" = VStr x ->
    x <> [] ->
    entity_id prefix (VObj untagged) = VStr id ->
    lookup untagged "etag" = None ->
    (exists c, _delete prefix (VStr id) VUndefined VUndefined log
               = (Returned tt, log ++ [c])
               /\ method c = "DELETE"%string /\ if_match c = None)
    /\ (exists c, _delete prefix (VStr id) (VStr etag) cb log
                  = (Returned tt, log ++ [c])
                  /\ method c = "DELETE"%string
                  /\ if_match c = Some (VStr etag))
    /\ (exists c, _delete prefix (VStr id) h ignored log
                  = (Returned tt, log ++ [c])
                  /\ method c = "DELETE"%string /\ if_match c = None
                  /\ done c = relay_delete h
                  /\ forall r, done c r
                               = Called h [if truthy (err r) then err r else VNull])
    /\ (exists c, _delete prefix (VObj tagged) cb ignored log
                  = (Returned tt, log ++ [c])
                  /\ method c = "DELETE"%string
                  /\ if_match c = Some (VStr x))
    /\ (exists c, _delete prefix (VObj untagged) cb ignored log
                  = (Returned tt, log ++ [c])
                  /\ method c = "DELETE"%string /\ if_match c = None).
Proof.
  intros prefix id e etag x h cb ignored tagged untagged log
         Hid Henc Hetag Hh Hcb Hp Htag Hx Hxne Huntag Hnone.
  repeat split.
  - eexists; split; [apply (delete_id_alone _ _ _ _ Hid Henc); reflexivity |].
    split; reflexivity.
  - eexists; split.
    + apply (delete_id_etag _ _ _ _ Hid Henc _ _ Hetag).
      unfold accepted_after_entity in Hcb.
      destruct (truthy cb); [right; now apply String.eqb_eq | now left].
    + split; reflexivity.
  - eexists; split; [apply (delete_id_handler _ _ _ _ Hid Henc _ _ Hh) |].
    repeat split. intros r. unfold delete_request, done, relay_delete, call_handler.
    rewrite (truthy_function _ Hh), Hh. destruct (truthy (err r)); reflexivity.
  - eexists; split;
      [apply (delete_entity _ _ _ _ _ Hp Htag Hid Henc _ _ Hcb) |].
    rewrite Hx, (truthy_string _ Hxne). split; reflexivity.
  - eexists; split;
      [apply (delete_entity _ _ _ _ _ Hp Huntag Hid Henc _ _ Hcb) |].
    unfold get_prop. rewrite Hnone. split; reflexivity.
Qed.

Lemma delete_if_match_table_witness :
  let id := lit "r1" in
  let h := VFun 0 (lit "function (err) {}") in
  let tagged := [("registrationId", VStr id); ("etag", VStr (lit "x"))]%string in
  let untagged := [("registrationId", VStr id)]%string in
  (exists c, _delete _enrollmentsPrefix (VStr id) VUndefined VUndefined []
             = (Returned tt, [] ++ [c])
             /\ method c = "DELETE"%string /\ if_match c = None)
  /\ (exists c, _delete _enrollmentsPrefix (VStr id) (VStr (lit "abc")) h []
                = (Returned tt, [] ++ [c])
                /\ method c = "DELETE"%string
                /\ if_match c = Some (VStr (lit "abc")))
  /\ (exists c, _delete _enrollmentsPrefix (VStr id) h VNull []
                = (Returned tt, [] ++ [c])
                /\ method c = "DELETE"%string /\ if_match c = None
                /\ done c = relay_delete h
                /\ forall r, done c r
                             = Called h [if truthy (err r) then err r else VNull])
  /\ (exists c, _delete _enrollmentsPrefix (VObj tagged) h VNull []
                = (Returned tt, [] ++ [c])
                /\ method c = "DELETE"%string
                /\ if_match c = Some (VStr (lit "x")))
  /\ (exists c, _delete _enrollmentsPrefix (VObj untagged) h VNull []
                = (Returned tt, [] ++ [c])
                /\ method c = "DELETE"%string /\ if_match c = None).
Proof.
  intros id h tagged untagged.
  apply (delete_if_match_table _enrollmentsPrefix id (lit "r1") (lit "abc")
           (lit "x") h h VNull tagged untagged []);
    try reflexivity; vm_compute; discriminate.
Defined.

(** C1, as the table states it, fails on an empty entity tag: the second
    argument is a string, yet the request carries no [If-Match] header
    (in particular not one equal to that string). *)
Lemma delete_empty_etag_unconditional :
  typeof (VStr (lit "")) = "string"%string
  /\ exists c, deleteIndividualEnrollment (VStr (lit "r1")) (VStr (lit "")) VUndefined []
               = (Returned tt, [c])
               /\ if_match c = None
               /\ if_match c <> Some (VStr (lit "")).
Proof.
  split; [reflexivity |].
  exists (delete_request _enrollmentsPrefix (lit "r1") None VUndefined).
  split; [reflexivity |]. split; [reflexivity | discriminate].
Qed.

(** C3, amended.  A delete whose first argument is a non-empty encodable
    identifier string, followed by arguments the method accepts, issues
    exactly one DELETE; it carries [If-Match] exactly when the second
    argument is a non-empty string, and the header then holds that
    string.  With the second argument absent, empty or a handler the
    request is unconditional. *)
Theorem delete_by_id_conditional_iff_etag :
  forall (prefix id e : jsstring) (a2 a3 : value) (log : wire),
    id <> [] ->
    encodeURIComponent id = Some e ->
    accepted_after_id a2 a3 = true ->
    exists c, _delete prefix (VStr id) a2 a3 log = (Returned tt, log ++ [c])
              /\ method c = "DELETE"%string
              /\ if_match c = (if is_etag a2 then Some a2 else None).
Proof.
  intros prefix id e a2 a3 log Hid Henc Hacc.
  unfold accepted_after_id in Hacc. unfold is_etag.
  destruct (truthy a2) eqn:T2.
  - destruct (String.eqb (typeof a2) "string") eqn:S2.
    + destruct a2; try discriminate S2.
      assert (Hs : s <> []) by (destruct s; [discriminate T2 | discriminate]).
      eexists; split.
      * apply (delete_id_etag _ _ _ _ Hid Henc _ _ Hs).
        simpl in Hacc. rewrite orb_false_r in Hacc.
        destruct (truthy a3); [right; now apply String.eqb_eq | now left].
      * split; reflexivity.
    + simpl in Hacc. apply String.eqb_eq in Hacc.
      eexists; split; [apply (delete_id_handler _ _ _ _ Hid Henc _ _ Hacc) |].
      split; reflexivity.
  - eexists; split; [apply (delete_id_alone _ _ _ _ Hid Henc _ _ T2) |].
    split; reflexivity.
Qed.

Lemma delete_by_id_conditional_iff_etag_witness :
  exists c, _delete _registrationsPrefix (VStr (lit "dev 1")) (VStr (lit "abc"))
              VUndefined []
            = (Returned tt, [] ++ [c])
            /\ method c = "DELETE"%string
            /\ if_match c = (if is_etag (VStr (lit "abc"))
                             then Some (VStr (lit "abc")) else None).
Proof.
  apply (delete_by_id_conditional_iff_etag _registrationsPrefix (lit "dev 1")
           (lit "dev%201") (VStr (lit "abc")) VUndefined []);
    try reflexivity; vm_compute; discriminate.
Defined.

(** C3, as stated, fails: a delete by bare identifier with an entity tag
    as second argument is conditional. *)
Lemma delete_by_id_with_etag_is_conditional :
  exists c, deleteIndividualEnrollment (VStr (lit "r1")) (VStr (lit "abc")) VUndefined []
            = (Returned tt, [c])
            /\ if_match c = Some (VStr (lit "abc")).
Proof.
  exists (delete_request _enrollmentsPrefix (lit "r1")
            (Some (VStr (lit "abc"))) VUndefined).
  split; reflexivity.
Qed.

(** C10, amended.  A delete by non-empty identifier string whose second
    argument is the empty string runs exactly as if that argument and
    everything after it were absent.  When the identifier is encodable,
    no error is raised, one DELETE without [If-Match] is issued, and
    whatever was passed as third argument -- a handler included -- is
    never called, whatever the transport reports.  When the identifier
    is not encodable (it holds an unpaired surrogate), [URIError] is
    raised and nothing is issued. *)
Theorem delete_empty_etag_drops_handler :
  forall (prefix id : jsstring) (h : value) (log : wire),
    id <> [] ->
    _delete prefix (VStr id) (VStr []) h log
    = _delete prefix (VStr id) VUndefined VUndefined log
    /\ (forall e,
          encodeURIComponent id = Some e ->
          exists c, _delete prefix (VStr id) (VStr []) h log
                    = (Returned tt, log ++ [c])
                    /\ method c = "DELETE"%string
                    /\ if_match c = None
                    /\ forall r, done c r = Discarded)
    /\ (encodeURIComponent id = None ->
        _delete prefix (VStr id) (VStr []) h log = (Thrown URIError, log)).
Proof.
  intros prefix id h log Hid.
  split; [reflexivity |]. split.
  - intros e Henc.
    rewrite (delete_id_alone _ _ _ _ Hid Henc (VStr []) h eq_refl).
    eexists; split; [reflexivity |]. repeat split.
  - intros Henc.
    unfold _delete, bind.
    rewrite (truthy_string _ Hid). cbn -[lit encodeURIComponent].
    rewrite (uri_component_undefined _ log Henc). reflexivity.
Qed.

Lemma delete_empty_etag_drops_handler_witness :
  let h := VFun 7 (lit "function (err) { throw err; }") in
  _delete _enrollmentGroupsPrefix (VStr (lit "g1")) (VStr []) h []
  = _delete _enrollmentGroupsPrefix (VStr (lit "g1")) VUndefined VUndefined []
  /\ exists c, _delete _enrollmentGroupsPrefix (VStr (lit "g1")) (VStr []) h []
               = (Returned tt, [] ++ [c])
               /\ method c = "DELETE"%string
               /\ if_match c = None
               /\ forall r, done c r = Discarded.
Proof.
  intros h.
  destruct (delete_empty_etag_drops_handler _enrollmentGroupsPrefix (lit "g1") h [])
    as [Same [Issued _]]; [vm_compute; discriminate |].
  split; [exact Same | exact (Issued (lit "g1") eq_refl)].
Defined.

(** C10, as stated, fails on an identifier that cannot be encoded: the
    identifier is a non-empty string and the second argument is the empty
    string, yet an error is raised. *)
Lemma delete_empty_etag_lone_surrogate_throws :
  [55357] <> []
  /\ deleteIndividualEnrollment (VStr [55357]) (VStr (lit ""))
       (VFun 0 (lit "function (err) {}")) []
     = (Thrown URIError, []).
Proof. split; [discriminate | reflexivity]. Qed.

(** ** Request paths *)

Lemma entity_id_truthy prefix entity id :
  entity_id prefix entity = VStr id -> truthy entity = true.
Proof.
  unfold entity_id, get_prop.
  destruct entity; try (destruct (jsstring_eqb _ _); discriminate).
  reflexivity.
Qed.

Lemma createOrUpdate_issues prefix entity id e cb log :
  entity_id prefix entity = VStr id ->
  id <> [] ->
  encodeURIComponent id = Some e ->
  _createOrUpdate prefix entity cb log
  = (Returned tt,
     log ++ [{| method := "PUT";
                path := prefix ++ e ++ _versionQueryString;
                headers := [("Accept", application_json);
                            ("Content-Type", application_json_utf8)]%string;
                body := entity;
                done := relay cb |}]).
Proof.
  intros Hf Hid Henc. unfold _createOrUpdate, bind.
  rewrite (entity_id_truthy _ _ _ Hf). unfold entity_id in Hf.
  rewrite Hf, (truthy_string _ Hid). cbv beta iota delta [negb].
  rewrite (uri_component_string _ _ log Henc). reflexivity.
Qed.

Lemma get_issues prefix id e cb log :
  id <> [] ->
  encodeURIComponent id = Some e ->
  _get prefix (VStr id) cb log
  = (Returned tt,
     log ++ [{| method := "GET";
                path := prefix ++ e ++ _versionQueryString;
                headers := [("Accept", application_json)]%string;
                body := VNull;
                done := relay_get cb |}]).
Proof.
  intros Hid Henc. unfold _get, bind.
  rewrite (truthy_string _ Hid). cbv beta iota delta [negb].
  rewrite (uri_component_string _ _ log Henc). reflexivity.
Qed.

(** An identifier that [encodeURIComponent] rejects (an unpaired
    surrogate) makes each operation throw [URIError] before the transport
    is touched. *)
Lemma unencodable_id_throws prefix id entity cb a3 log :
  id <> [] ->
  encodeURIComponent id = None ->
  entity_id prefix entity = VStr id ->
  _createOrUpdate prefix entity cb log = (Thrown URIError, log)
  /\ _get prefix (VStr id) cb log = (Thrown URIError, log)
  /\ _delete prefix (VStr id) VUndefined a3 log = (Thrown URIError, log).
Proof.
  intros Hid Henc Hf. repeat split.
  - unfold _createOrUpdate, bind.
    rewrite (entity_id_truthy _ _ _ Hf). unfold entity_id in Hf.
    rewrite Hf, (truthy_string _ Hid). cbv beta iota delta [negb].
    rewrite (uri_component_undefined _ log Henc). reflexivity.
  - unfold _get, bind.
    rewrite (truthy_string _ Hid). cbv beta iota delta [negb].
    rewrite (uri_component_undefined _ log Henc). reflexivity.
  - unfold _delete, bind.
    rewrite (truthy_string _ Hid). cbn -[lit encodeURIComponent].
    rewrite (uri_component_undefined _ log Henc). reflexivity.
Qed.

(** C2.  For every prefix and every non-empty identifier [id] with
    percent-encoding [e], the request issued by create-or-update (for an
    entity whose identifier field is [id]), by fetch and by delete (by
    identifier, or by an entity whose identifier field is [id]) has the
    path [prefix ++ e ++ "?api-version=2017-08-31-preview"].  The encoded
    identifier contains no slash, question mark or space, and the path
    starts with the unchanged prefix. *)
Theorem request_path_is_prefix_encoded_id_version :
  forall (prefix id e : jsstring) (entity cb a2 a3 : value) (log : wire),
    id <> [] ->
    encodeURIComponent id = Some e ->
    entity_id prefix entity = VStr id ->
    accepted_after_id a2 a3 = true ->
    let expected := prefix ++ e ++ lit "?api-version=2017-08-31-preview" in
    (exists c, _createOrUpdate prefix entity cb log = (Returned tt, log ++ [c])
               /\ method c = "PUT"%string /\ path c = expected)
    /\ (exists c, _get prefix (VStr id) cb log = (Returned tt, log ++ [c])
                  /\ method c = "GET"%string /\ path c = expected)
    /\ (exists c, _delete prefix (VStr id) a2 a3 log = (Returned tt, log ++ [c])
                  /\ method c = "DELETE"%string /\ path c = expected)
    /\ (forall props,
          known_prefix prefix = true ->
          entity = VObj props ->
          accepted_after_entity a2 = true ->
          exists c, _delete prefix entity a2 a3 log = (Returned tt, log ++ [c])
                    /\ method c = "DELETE"%string /\ path c = expected)
    /\ existsb breaks_segment e = false
    /\ firstn (List.length prefix) expected = prefix.
Proof.
  intros prefix id e entity cb a2 a3 log Hid Henc Hf Hacc expected.
  split; [| split; [| split; [| split; [| split]]]].
  - eexists; split; [apply (createOrUpdate_issues _ _ _ _ _ _ Hf Hid Henc) |].
    split; reflexivity.
  - eexists; split; [apply (get_issues _ _ _ _ _ Hid Henc) |].
    split; reflexivity.
  - destruct (delete_by_id_issues prefix id e a2 a3 log
                Hid Henc Hacc) as [m [w ->]].
    eexists; split; [reflexivity |]. split; reflexivity.
  - intros props Hk -> Ha.
    eexists; split; [apply (delete_entity _ _ _ _ _ Hk Hf Hid Henc _ _ Ha) |].
    split; reflexivity.
  - apply (encodeURIComponent_segment _ _ Henc).
  - subst expected. rewrite firstn_app, Nat.sub_diag, firstn_all.
    simpl. apply app_nil_r.
Qed.

Lemma request_path_is_prefix_encoded_id_version_witness :
  let id := lit "a/b?c d" in
  let e := lit "a%2Fb%3Fc%20d" in
  let entity := VObj [("registrationId", VStr id)]%string in
  let expected := lit "/enrollments/a%2Fb%3Fc%20d?api-version=2017-08-31-preview" in
  (exists c, _createOrUpdate _enrollmentsPrefix entity VUndefined []
             = (Returned tt, [] ++ [c])
             /\ method c = "PUT"%string /\ path c = expected)
  /\ (exists c, _get _enrollmentsPrefix (VStr id) VUndefined []
                = (Returned tt, [] ++ [c])
                /\ method c = "GET"%string /\ path c = expected)
  /\ (exists c, _delete _enrollmentsPrefix (VStr id) VUndefined VUndefined []
                = (Returned tt, [] ++ [c])
                /\ method c = "DELETE"%string /\ path c = expected)
  /\ (exists c, _delete _enrollmentsPrefix entity VUndefined VUndefined []
                = (Returned tt, [] ++ [c])
                /\ method c = "DELETE"%string /\ path c = expected)
  /\ existsb breaks_segment e = false
  /\ firstn (List.length _enrollmentsPrefix) expected = _enrollmentsPrefix.
Proof.
  intros id e entity expected.
  assert (Hid : id <> []) by (vm_compute; discriminate).
  destruct (request_path_is_prefix_encoded_id_version _enrollmentsPrefix id e
              entity VUndefined VUndefined VUndefined []
              Hid eq_refl eq_refl eq_refl)
    as [H1 [H2 [H3 [H4 [H5 H6]]]]].
  split; [exact H1 |]. split; [exact H2 |]. split; [exact H3 |].
  split; [exact (H4 _ eq_refl eq_refl eq_refl) |].
  split; [exact H5 | exact H6].
Defined.

(** ** Headers *)

(** C4, amended.  Every request built by create-or-update, fetch, bulk
    and query page carries [Accept: application/json]; a delete request
    carries no [Accept] header.  [Content-Type: application/json;
    charset=utf-8] is carried exactly by the requests whose body is the
    caller's payload (create-or-update: the entity, bulk: the operation
    set, query page: the query specification) and by none whose body is
    [null] (fetch, delete). *)
Theorem accept_and_content_type :
  forall (o : operation) (c : api_call),
    In c (requests (run o)) ->
    lookup (headers c) "Accept"
    = (if is_delete o then None else Some (VStr (lit "application/json")))
    /\ (lookup (headers c) "Content-Type"
        = match payload o with
          | Some _ => Some (VStr (lit "application/json; charset=utf-8"))
          | None => None
          end)
    /\ body c = match payload o with Some sent => sent | None => VNull end.
Proof.
  intros o c; destruct o; unfold requests, run, _createOrUpdate, _get, _delete,
    bulkOperation, _getEnrollFunc, bind, uri_component, ret, throw,
    executeApiCall;
    cbn [is_delete payload]; split_run; cbn [fst snd app In];
    intros H; first [ now destruct H | destruct H as [<- | []]; repeat split ].
Qed.

Lemma accept_and_content_type_witness :
  let entity := VObj [("enrollmentGroupId", VStr (lit "g1"))]%string in
  let o := CreateOrUpdate _enrollmentGroupsPrefix entity VUndefined in
  exists c, In c (requests (run o))
    /\ lookup (headers c) "Accept" = Some (VStr (lit "application/json"))
    /\ lookup (headers c) "Content-Type"
       = Some (VStr (lit "application/json; charset=utf-8"))
    /\ body c = entity.
Proof.
  intros entity o.
  exists {| method := "PUT";
            path := lit "/enrollmentGroups/g1?api-version=2017-08-31-preview";
            headers := [("Accept", application_json);
                        ("Content-Type", application_json_utf8)]%string;
            body := entity;
            done := relay VUndefined |}.
  assert (I : In {| method := "PUT";
            path := lit "/enrollmentGroups/g1?api-version=2017-08-31-preview";
            headers := [("Accept", application_json);
                        ("Content-Type", application_json_utf8)]%string;
            body := entity;
            done := relay VUndefined |} (requests (run o)))
    by (left; reflexivity).
  split; [exact I |].
  exact (accept_and_content_type o _ I).
Defined.

(** C4, as stated, fails for delete: the request carries no [Accept]
    header. *)
Lemma delete_request_has_no_accept :
  exists c, deleteIndividualEnrollment (VStr (lit "r1")) VUndefined VUndefined []
            = (Returned tt, [c])
            /\ headers c = []
            /\ lookup (headers c) "Accept" <> Some (VStr (lit "application/json")).
Proof.
  exists (delete_request _enrollmentsPrefix (lit "r1") None VUndefined).
  split; [reflexivity |]. split; [reflexivity | discriminate].
Qed.

(** ** Argument validation *)

(** C5, amended.  A fetch whose identifier is the empty string fails
    synchronously with the missing-argument condition ([ReferenceError]),
    the same condition an absent identifier gets, and not with the
    invalid-argument condition; no request reaches the transport. *)
Theorem get_empty_id_is_missing_argument :
  forall (prefix : jsstring) (getCallback : value) (log : wire),
    (exists failure,
        _get prefix (VStr []) getCallback log = (Thrown failure, log)
        /\ failure = ReferenceError
             (lit "Required parameter '' was null or undefined when calling get.")
        /\ missing_condition failure = true
        /\ invalid_condition failure = false)
    /\ (exists failure,
          _get prefix VUndefined getCallback log = (Thrown failure, log)
          /\ missing_condition failure = true).
Proof.
  intros prefix getCallback log. split.
  - eexists; split; [reflexivity |]. repeat split.
  - eexists; split; [reflexivity |]. reflexivity.
Qed.

(** C5, as stated, fails: the empty identifier is reported with the
    missing-argument condition, not with the invalid-argument one. *)
Lemma get_empty_id_not_invalid_argument :
  exists failure,
    getIndividualEnrollment (VStr (lit "")) (VFun 0 (lit "function () {}")) []
    = (Thrown failure, [])
    /\ invalid_condition failure = false
    /\ missing_condition failure = true.
Proof. eexists; split; [reflexivity |]. split; reflexivity. Qed.

(** C6.  Create-or-update, for enrollments and for enrollment groups:
    an absent (falsy) entity fails with the missing-argument condition; a
    present entity whose identifier field ([registrationId] for
    enrollments, [enrollmentGroupId] for groups) is empty or absent fails
    with the invalid-argument condition; in every such case the transport
    log is unchanged. *)
Theorem createOrUpdate_validates_entity :
  forall (absent enrollment group callback : value) (log : wire),
    truthy absent = false ->
    truthy enrollment = true ->
    truthy (get_prop enrollment "registrationId") = false ->
    truthy group = true ->
    truthy (get_prop group "enrollmentGroupId") = false ->
    (exists failure,
        createOrUpdateIndividualEnrollment absent callback log
        = (Thrown failure, log) /\ missing_condition failure = true)
    /\ (exists failure,
          createOrUpdateEnrollmentGroup absent callback log
          = (Thrown failure, log) /\ missing_condition failure = true)
    /\ (exists failure,
          createOrUpdateIndividualEnrollment enrollment callback log
          = (Thrown failure, log) /\ invalid_condition failure = true)
    /\ (exists failure,
          createOrUpdateEnrollmentGroup group callback log
          = (Thrown failure, log) /\ invalid_condition failure = true).
Proof.
  intros absent enrollment group callback log Ha He Hr Hg Hi.
  unfold createOrUpdateIndividualEnrollment, createOrUpdateEnrollmentGroup,
    _createOrUpdate.
  change (jsstring_eqb _enrollmentsPrefix _enrollmentGroupsPrefix) with false.
  change (jsstring_eqb _enrollmentGroupsPrefix _enrollmentGroupsPrefix) with true.
  rewrite Ha, He, Hg. cbv beta iota delta [negb]. rewrite Hr, Hi.
  repeat split; eexists; split; reflexivity.
Qed.

Lemma createOrUpdate_validates_entity_witness :
  let enrollment := VObj [("registrationId", VStr (lit ""))]%string in
  let group := VObj [("etag", VStr (lit "x"))]%string in
  (exists failure,
      createOrUpdateIndividualEnrollment VUndefined VUndefined []
      = (Thrown failure, []) /\ missing_condition failure = true)
  /\ (exists failure,
        createOrUpdateEnrollmentGroup VUndefined VUndefined []
        = (Thrown failure, []) /\ missing_condition failure = true)
  /\ (exists failure,
        createOrUpdateIndividualEnrollment enrollment VUndefined []
        = (Thrown failure, []) /\ invalid_condition failure = true)
  /\ (exists failure,
        createOrUpdateEnrollmentGroup group VUndefined []
        = (Thrown failure, []) /\ invalid_condition failure = true).
Proof.
  intros enrollment group.
  apply (createOrUpdate_validates_entity VUndefined enrollment group VUndefined []);
    reflexivity.
Defined.

(** ** Query pages *)

(** C7, amended.  A query-page request carries [x-ms-max-item-count]
    exactly when the configured page size is truthy, and the header then
    holds the page size as configured: for a numeric page size the header
    is attached for every non-zero value (a negative one included) and
    omitted for zero; it is omitted for an absent page size. *)
Theorem page_size_header_iff_truthy :
  forall (prefix : jsstring) (querySpecification pageSize continuationToken done_ : value)
         (n : Z) (log : wire),
    (exists c,
        _getEnrollFunc prefix querySpecification pageSize continuationToken done_ log
        = (Returned tt, log ++ [c])
        /\ method c = "POST"%string
        /\ path c = prefix ++ lit "query" ++ _versionQueryString
        /\ lookup (headers c) "x-ms-max-item-count"
           = (if truthy pageSize then Some pageSize else None))
    /\ (exists c,
          _getEnrollFunc prefix querySpecification (VNum n) continuationToken done_ log
          = (Returned tt, log ++ [c])
          /\ lookup (headers c) "x-ms-max-item-count"
             = (if n =? 0 then None else Some (VNum n)))
    /\ (exists c,
          _getEnrollFunc prefix querySpecification VUndefined continuationToken done_ log
          = (Returned tt, log ++ [c])
          /\ lookup (headers c) "x-ms-max-item-count" = None).
Proof.
  intros prefix q pageSize token done_ n log.
  assert (G : forall size, exists c,
               _getEnrollFunc prefix q size token done_ log
               = (Returned tt, log ++ [c])
               /\ method c = "POST"%string
               /\ path c = prefix ++ lit "query" ++ _versionQueryString
               /\ lookup (headers c) "x-ms-max-item-count"
                  = (if truthy size then Some size else None)).
  { intros size. unfold _getEnrollFunc, executeApiCall.
    eexists; split; [reflexivity |]. cbn [method path headers].
    split; [reflexivity |]. split; [reflexivity |].
    destruct (truthy size); [apply lookup_set_prop_same |].
    destruct (truthy token); reflexivity. }
  split; [apply G |]. split.
  - destruct (G (VNum n)) as [c [E [_ [_ H]]]].
    exists c; split; [exact E |]. rewrite H. simpl.
    destruct (n =? 0); reflexivity.
  - destruct (G VUndefined) as [c [E [_ [_ H]]]].
    exists c; split; [exact E | exact H].
Qed.

(** C7, as stated, fails for a negative page size: the header is
    attached. *)
Lemma negative_page_size_is_sent :
  exists c,
    createQueryIndividualEnrollment (VObj [("query", VStr (lit "*"))]%string)
      (VNum (-1)) VUndefined (VFun 0 (lit "function () {}")) []
    = (Returned tt, [c])
    /\ lookup (headers c) "x-ms-max-item-count" = Some (VNum (-1)).
Proof. eexists; split; reflexivity. Qed.

(** A resumed query carries the continuation token and keeps the page
    size header. *)
Example query_page_resumed :
  map headers
    (requests (createQueryEnrollmentGroup VNull (VNum 10) (VStr (lit "t1")) VUndefined))
  = [[("Accept", application_json);
      ("Content-Type", application_json_utf8);
      ("x-ms-continuation", VStr (lit "t1"));
      ("x-ms-max-item-count", VNum 10)]%string].
Proof. reflexivity. Qed.

(** ** Bulk operation *)

(** C8, on the code.  For a present (truthy) operation set exactly one
    request is issued: a POST carrying [Accept] and [Content-Type] with
    the operation set as body -- but its path is
    ['/enrollments/?api-version=2017-08-31-preview'], the enrollment
    prefix WITH its trailing slash, and not the collection endpoint
    ['/enrollments?api-version=2017-08-31-preview'].  An absent operation
    set is refused with the missing-argument condition and nothing is
    issued. *)
Theorem bulkOperation_path_keeps_slash :
  forall (operations callback absent : value) (log : wire),
    truthy operations = true ->
    truthy absent = false ->
    bulkOperation operations callback log
    = (Returned tt,
       log ++ [{| method := "POST";
                  path := lit "/enrollments/?api-version=2017-08-31-preview";
                  headers := [("Accept", VStr (lit "application/json"));
                              ("Content-Type",
                               VStr (lit "application/json; charset=utf-8"))]%string;
                  body := operations;
                  done := relay callback |}])
    /\ lit "/enrollments/?api-version=2017-08-31-preview"
       <> lit "/enrollments?api-version=2017-08-31-preview"
    /\ exists failure,
         bulkOperation absent callback log = (Thrown failure, log)
         /\ missing_condition failure = true.
Proof.
  intros operations callback absent log Hop Habs.
  unfold bulkOperation. rewrite Hop, Habs.
  split; [reflexivity |]. split; [vm_compute; discriminate |].
  eexists; split; reflexivity.
Qed.

Lemma bulkOperation_path_keeps_slash_witness :
  let operations := VObj [("mode", VStr (lit "create"));
                          ("enrollments", VObj [])]%string in
  bulkOperation operations VUndefined []
  = (Returned tt,
     [] ++ [{| method := "POST";
               path := lit "/enrollments/?api-version=2017-08-31-preview";
               headers := [("Accept", VStr (lit "application/json"));
                           ("Content-Type",
                            VStr (lit "application/json; charset=utf-8"))]%string;
               body := operations;
               done := relay VUndefined |}])
  /\ lit "/enrollments/?api-version=2017-08-31-preview"
     <> lit "/enrollments?api-version=2017-08-31-preview"
  /\ exists failure,
       bulkOperation VNull VUndefined [] = (Thrown failure, [])
       /\ missing_condition failure = true.
Proof.
  intros operations.
  apply (bulkOperation_path_keeps_slash operations VUndefined VNull []);
    reflexivity.
Defined.

(** ** Construction *)

Lemma constructor_builds_transport pkg config made :
  truthy config = true ->
  truthy (get_prop config "host") = true ->
  truthy (get_prop config "sharedAccessSignature") = true ->
  constructor pkg config VUndefined made
  = (Returned {| _config := config; _restApiClient := Created (List.length made) |},
     made ++ [(config, name pkg ++ lit "/" ++ version pkg)]).
Proof.
  intros Hc Hh Hs. unfold constructor, bind, new_RestApiClient.
  rewrite Hc, Hh, Hs. reflexivity.
Qed.

Lemma constructor_keeps_supplied_transport pkg config client made :
  truthy config = true ->
  truthy (get_prop config "host") = true ->
  truthy (get_prop config "sharedAccessSignature") = true ->
  truthy client = true ->
  constructor pkg config client made
  = (Returned {| _config := config; _restApiClient := Supplied client |}, made).
Proof.
  intros Hc Hh Hs Hcl. unfold constructor, bind.
  rewrite Hc, Hh, Hs, Hcl. reflexivity.
Qed.

(** C9.  Construction validates the configuration first: an absent
    (falsy) configuration fails with the missing-configuration condition;
    a present configuration lacking the host or the credential
    ([sharedAccessSignature]) fails with the invalid-configuration
    condition; in both cases no [RestApiClient] is instantiated (the list
    of instantiations is unchanged), whether or not a transport was
    supplied. *)
Theorem constructor_validates_config :
  forall (pkg : package) (absent partial restApiClient : value) (made : factory),
    truthy absent = false ->
    truthy partial = true ->
    truthy (get_prop partial "host") = false
    \/ truthy (get_prop partial "sharedAccessSignature") = false ->
    (exists failure,
        constructor pkg absent restApiClient made = (Thrown failure, made)
        /\ missing_condition failure = true)
    /\ (exists failure,
          constructor pkg partial restApiClient made = (Thrown failure, made)
          /\ invalid_condition failure = true).
Proof.
  intros pkg absent partial client made Ha Hp Hmiss.
  unfold constructor. rewrite Ha, Hp. cbv beta iota delta [negb].
  split; [eexists; split; reflexivity |].
  destruct Hmiss as [H | H]; rewrite H.
  - eexists; split; reflexivity.
  - destruct (truthy (get_prop partial "host")); eexists; split; reflexivity.
Qed.

Lemma constructor_validates_config_witness :
  let pkg := {| name := lit "azure-iot-provisioning-service";
                version := lit "1.0.0" |} in
  let partial := VObj [("host", VStr (lit "contoso.azure-devices-provisioning.net"))]%string in
  (exists failure,
      constructor pkg VUndefined VUndefined [] = (Thrown failure, [])
      /\ missing_condition failure = true)
  /\ (exists failure,
        constructor pkg partial VUndefined [] = (Thrown failure, [])
        /\ invalid_condition failure = true).
Proof.
  intros pkg partial.
  apply (constructor_validates_config pkg VUndefined partial VUndefined []);
    [reflexivity | reflexivity | right; reflexivity].
Defined.

(** * Further properties of the class *)

(** Case analysis over the branches left in a hypothesis [E] that equates
    a run with an outcome it cannot have. *)
Ltac refute_run E :=
  repeat (cbv beta iota in E;
          match type of E with
          | context [if ?b then _ else _] => destruct b eqn:?
          | context [match encodeURIComponent ?s with _ => _ end] =>
              destruct (encodeURIComponent s) eqn:?
          end);
  cbv beta iota in E; discriminate E.

Ltac unfold_run :=
  unfold run, _createOrUpdate, _get, _delete, bulkOperation, _getEnrollFunc,
    bind, uri_component, ret, throw, executeApiCall.

(** ** One exchange per call *)

(** X1.  Every operation of the class either throws and leaves the
    transport untouched, or returns after handing the transport exactly
    one request, appended after the requests already issued and carrying
    the HTTP method of its kind (PUT for create-or-update, GET for fetch,
    DELETE for delete, POST for bulk and query page).  No operation
    issues a request and then throws, and none issues two. *)
Theorem run_throws_or_issues_one :
  forall (o : operation) (log : wire),
    (exists failure, run o log = (Thrown failure, log))
    \/ (exists c, run o log = (Returned tt, log ++ [c])
                  /\ method c = verb o).
Proof.
  intros o log. destruct o; unfold_run; cbn [verb]; split_run;
    first [ left; eexists; reflexivity
          | right; eexists; split; reflexivity ].
Qed.

(** X2.  The class keeps no state between calls: an operation that
    issued request [c] issues the same request again when repeated, so
    two calls put two equal requests on the wire (no deduplication, no
    caching), whatever was issued before. *)
Theorem run_twice_issues_twice :
  forall (o : operation) (log : wire) (c : api_call),
    run o log = (Returned tt, log ++ [c]) ->
    (_ <- run o ;; run o) log = (Returned tt, log ++ [c; c]).
Proof.
  intros o log c H. unfold bind. rewrite H.
  rewrite (run_frame o log) in H. rewrite (run_frame o (log ++ [c])).
  inversion H as [[F R]]. apply app_inv_head in R. rewrite F, R.
  rewrite <- app_assoc. reflexivity.
Qed.

Lemma run_twice_issues_twice_witness :
  let entity := VObj [("registrationId", VStr (lit "r1"))]%string in
  let o := CreateOrUpdate _enrollmentsPrefix entity VUndefined in
  let c := {| method := "PUT";
              path := lit "/enrollments/r1?api-version=2017-08-31-preview";
              headers := [("Accept", application_json);
                          ("Content-Type", application_json_utf8)]%string;
              body := entity;
              done := relay VUndefined |} in
  (_ <- run o ;; run o) [] = (Returned tt, [] ++ [c; c]).
Proof.
  intros entity o c.
  apply (run_twice_issues_twice o [] c). reflexivity.
Defined.

(** ** Delete: what is refused *)

(** X3.  A delete by (non-empty) identifier string is refused with the
    invalid-argument condition exactly when the arguments after the
    identifier are not acceptable: a second argument that is present but
    neither a string nor a function, or a string followed by a third
    argument that is present but not a function.  The refusal happens
    before anything reaches the transport. *)
Theorem delete_by_id_refused_iff :
  forall (prefix id : jsstring) (a2 a3 : value) (log : wire),
    id <> [] ->
    (accepted_after_id a2 a3 = false
     <-> exists message,
           _delete prefix (VStr id) a2 a3 log
           = (Thrown (ArgumentError message), log)).
Proof.
  intros prefix id a2 a3 log Hid.
  unfold accepted_after_id, _delete, bind, uri_component, ret, throw,
    executeApiCall.
  rewrite (truthy_string _ Hid).
  change (String.eqb (typeof (VStr id)) "string") with true.
  cbn [negb ToString].
  destruct (truthy a2) eqn:T2; cbn [negb orb andb].
  - destruct (String.eqb (typeof a2) "string") eqn:S2; cbn [negb orb andb].
    + destruct (truthy a3) eqn:T3; cbn [negb orb andb].
      * destruct (String.eqb (typeof a3) "function") eqn:F3; cbn [negb orb andb].
        -- split; [discriminate |]. intros [m E].
           refute_run E.
        -- split; [intros _; eexists; reflexivity | ].
           intros _. destruct a2; try discriminate S2; reflexivity.
      * split; [discriminate |]. intros [m E].
        refute_run E.
    + destruct (String.eqb (typeof a2) "function") eqn:F2.
      * split; [discriminate |]. intros [m E].
        refute_run E.
      * split; [intros _; eexists; reflexivity | reflexivity].
  - split; [discriminate |]. intros [m E].
    refute_run E.
Qed.

Lemma delete_by_id_refused_iff_witness :
  (accepted_after_id (VStr (lit "abc")) (VNum 5) = false
   <-> exists message,
         _delete _enrollmentsPrefix (VStr (lit "r1")) (VStr (lit "abc")) (VNum 5) []
         = (Thrown (ArgumentError message), [])).
Proof.
  apply (delete_by_id_refused_iff _enrollmentsPrefix (lit "r1")
           (VStr (lit "abc")) (VNum 5) []).
  vm_compute; discriminate.
Defined.

(** X4.  A delete by entity object, on any of the three resource kinds,
    is refused with the invalid-argument condition exactly when the
    identifier field of the kind ([enrollmentGroupId] for groups,
    [registrationId] otherwise) is empty or absent, or the second
    argument is present but not a function -- an entity tag passed as
    second argument next to an entity is refused, not used.  The refusal
    happens before anything reaches the transport. *)
Theorem delete_by_entity_refused_iff :
  forall (prefix : jsstring) (props : object) (a2 a3 : value) (log : wire),
    known_prefix prefix = true ->
    (truthy (entity_id prefix (VObj props)) = false
     \/ accepted_after_entity a2 = false
     <-> exists message,
           _delete prefix (VObj props) a2 a3 log
           = (Thrown (ArgumentError message), log)).
Proof.
  intros prefix props a2 a3 log Hk.
  unfold accepted_after_entity, entity_id, _delete, bind, uri_component,
    ret, throw, executeApiCall.
  change (truthy (VObj props)) with true.
  change (String.eqb (typeof (VObj props)) "string") with false.
  cbn [negb].
  destruct (known_prefix_cases _ Hk) as [P | [P | P]]; rewrite P;
    repeat match goal with
    | |- context [jsstring_eqb ?a ?b] =>
        let v := eval vm_compute in (jsstring_eqb a b) in
        change (jsstring_eqb a b) with v
    end;
    cbv beta iota;
    match goal with
    | |- context [truthy (get_prop (VObj props) ?k)] =>
        destruct (truthy (get_prop (VObj props) k)) eqn:Tid
    end;
    cbn [negb orb];
    try (split; [intros _; eexists; reflexivity | intros _; now left]);
    destruct (truthy a2) eqn:T2; cbn [negb orb];
    try destruct (String.eqb (typeof a2) "function") eqn:F2; cbn [negb orb];
    try (split; [intros _; eexists; reflexivity | intros _; now right]);
    (split; [intros [H | H]; discriminate H |]);
    intros [m E]; refute_run E.
Qed.

Lemma delete_by_entity_refused_iff_witness :
  let props := [("registrationId", VStr (lit "r1")); ("etag", VStr (lit "x"))]%string in
  (truthy (entity_id _enrollmentsPrefix (VObj props)) = false
   \/ accepted_after_entity (VStr (lit "y")) = false
   <-> exists message,
         _delete _enrollmentsPrefix (VObj props) (VStr (lit "y")) VUndefined []
         = (Thrown (ArgumentError message), [])).
Proof.
  intros props.
  apply (delete_by_entity_refused_iff _enrollmentsPrefix props
           (VStr (lit "y")) VUndefined []).
  reflexivity.
Defined.

(** ** Create-or-update is never conditional *)

(** X5.  A create-or-update request carries exactly the two content
    negotiation headers and the entity itself as body: whatever [etag]
    the entity holds travels inside the body only, and no [If-Match]
    header is ever attached. *)
Theorem createOrUpdate_never_conditional :
  forall (prefix : jsstring) (entity callback : value) (c : api_call),
    In c (requests (_createOrUpdate prefix entity callback)) ->
    headers c = [("Accept", VStr (lit "application/json"));
                 ("Content-Type", VStr (lit "application/json; charset=utf-8"))]%string
    /\ if_match c = None
    /\ body c = entity.
Proof.
  intros prefix entity callback c.
  unfold requests; unfold_run; split_run; cbn [fst snd app In];
    intros H; first [ now destruct H | destruct H as [<- | []]; repeat split ].
Qed.

Lemma createOrUpdate_never_conditional_witness :
  let entity := VObj [("registrationId", VStr (lit "r1"));
                      ("etag", VStr (lit "x"))]%string in
  exists c,
    In c (requests (createOrUpdateIndividualEnrollment entity VUndefined))
    /\ headers c = [("Accept", VStr (lit "application/json"));
                    ("Content-Type", VStr (lit "application/json; charset=utf-8"))]%string
    /\ if_match c = None
    /\ body c = entity.
Proof.
  intros entity.
  assert (I : In {| method := "PUT";
                    path := lit "/enrollments/r1?api-version=2017-08-31-preview";
                    headers := [("Accept", application_json);
                                ("Content-Type", application_json_utf8)]%string;
                    body := entity;
                    done := relay VUndefined |}
                 (requests (createOrUpdateIndividualEnrollment entity VUndefined)))
    by (left; reflexivity).
  eexists; split; [exact I |].
  exact (createOrUpdate_never_conditional _ _ _ _ I).
Defined.

(** ** What the caller's handler is told *)

(** X6.  Result normalisation of create-or-update and bulk: when the
    handler is a function, a transport failure reaches it as the single
    argument [err], and a success as [(null, result, httpResponse)]; when
    no handler was given the outcome is discarded, the request having
    been issued all the same. *)
Theorem relay_normalises_result :
  forall (o : operation) (callback : value) (c : api_call) (r : response),
    (exists prefix entity, o = CreateOrUpdate prefix entity callback)
    \/ (exists operations, o = Bulk operations callback) ->
    In c (requests (run o)) ->
    (typeof callback = "function"%string ->
     done c r = if truthy (err r)
                then Called callback [err r]
                else Called callback [VNull; result r; httpResponse r])
    /\ (truthy callback = false -> done c r = Discarded).
Proof.
  intros o callback c r Ho.
  assert (D : In c (requests (run o)) -> done c = relay callback).
  { destruct Ho as [[prefix [entity ->]] | [operations ->]];
      unfold requests; unfold_run; split_run; cbn [fst snd app In];
      intros H; first [ now destruct H | destruct H as [<- | []]; reflexivity ]. }
  intros I. rewrite (D I). unfold relay, call_handler. split.
  - intros F. rewrite (truthy_function _ F), F.
    destruct (truthy (err r)); reflexivity.
  - intros ->. reflexivity.
Qed.

Lemma relay_normalises_result_witness :
  let h := VFun 1 (lit "function (err, result) {}") in
  let operations := VObj [("mode", VStr (lit "create"))]%string in
  let c := {| method := "POST";
              path := _enrollmentsPrefix ++ _versionQueryString;
              headers := [("Accept", application_json);
                          ("Content-Type", application_json_utf8)]%string;
              body := operations;
              done := relay h |} in
  let r := {| err := VNull; result := VObj []; httpResponse := VObj [] |} in
  done c r = Called h [VNull; VObj []; VObj []].
Proof.
  intros h operations c r.
  assert (I : In c (requests (run (Bulk operations h)))) by (left; reflexivity).
  exact (proj1 (relay_normalises_result (Bulk operations h) h c r
                  (or_intror (ex_intro _ operations eq_refl)) I) eq_refl).
Defined.

(** X7.  Fetch calls its handler without checking it: with a function
    handler the result is normalised as for create-or-update, but with a
    missing handler the request is still issued and every completion,
    failure or success, ends in a call of a non-function -- the result is
    lost. *)
Theorem get_calls_handler_unguarded :
  forall (prefix id e : jsstring) (getCallback : value) (log : wire) (r : response),
    id <> [] ->
    encodeURIComponent id = Some e ->
    exists c,
      _get prefix (VStr id) getCallback log = (Returned tt, log ++ [c])
      /\ (typeof getCallback = "function"%string ->
          done c r = if truthy (err r)
                     then Called getCallback [err r]
                     else Called getCallback [VNull; result r; httpResponse r])
      /\ (typeof getCallback <> "function"%string ->
          done c r = NotCallable getCallback).
Proof.
  intros prefix id e getCallback log r Hid Henc.
  eexists; split; [apply (get_issues _ _ _ _ _ Hid Henc) |].
  cbn [done]. unfold relay_get, call_handler. split.
  - intros ->. reflexivity.
  - intros N. destruct (String.eqb_spec (typeof getCallback) "function");
      [contradiction |]. destruct (truthy (err r)); reflexivity.
Qed.

Lemma get_calls_handler_unguarded_witness :
  let r := {| err := VNull; result := VObj []; httpResponse := VObj [] |} in
  exists c,
    _get _registrationsPrefix (VStr (lit "d1")) VUndefined [] = (Returned tt, [] ++ [c])
    /\ done c r = NotCallable VUndefined.
Proof.
  intros r.
  destruct (get_calls_handler_unguarded _registrationsPrefix (lit "d1") (lit "d1")
              VUndefined [] r) as [c [E [_ N]]];
    [vm_compute; discriminate | reflexivity |].
  exists c; split; [exact E |]. apply N. vm_compute; discriminate.
Defined.

(** ** Query pages *)

(** X8.  A query page is issued without any validation of its
    arguments: it never throws, and its request is a POST to
    [prefix ++ "query" ++ version] whose body is the query specification
    as given and whose headers are exactly the two content negotiation
    headers, then [x-ms-continuation] holding the continuation token
    unchanged when (and only when) the token is truthy, then
    [x-ms-max-item-count] when the page size is truthy. *)
Theorem query_page_request :
  forall (prefix : jsstring) (querySpecification pageSize continuationToken done_ : value)
         (log : wire),
    _getEnrollFunc prefix querySpecification pageSize continuationToken done_ log
    = (Returned tt,
       log ++ [{| method := "POST";
                  path := prefix ++ lit "query" ++ lit "?api-version=2017-08-31-preview";
                  headers :=
                    [("Accept", VStr (lit "application/json"));
                     ("Content-Type", VStr (lit "application/json; charset=utf-8"))]%string
                    ++ paging_headers continuationToken pageSize;
                  body := querySpecification;
                  done := forward done_ |}]).
Proof.
  intros prefix q pageSize token done_ log.
  unfold _getEnrollFunc, executeApiCall, paging_headers.
  destruct (truthy token), (truthy pageSize); reflexivity.
Qed.

(** ** Construction with a valid configuration *)

(** X9.  With a configuration that has a host and a credential, the
    constructor keeps that configuration and chooses its transport by the
    second argument: a supplied (truthy) transport is used as it is and
    no [RestApiClient] is instantiated; otherwise exactly one
    [RestApiClient] is instantiated, for the same configuration and the
    user agent [name/version] of the package. *)
Theorem constructor_chooses_transport :
  forall (pkg : package) (config restApiClient : value) (made : factory),
    truthy config = true ->
    truthy (get_prop config "host") = true ->
    truthy (get_prop config "sharedAccessSignature") = true ->
    constructor pkg config restApiClient made
    = if truthy restApiClient
      then (Returned {| _config := config;
                        _restApiClient := Supplied restApiClient |}, made)
      else (Returned {| _config := config;
                        _restApiClient := Created (List.length made) |},
            made ++ [(config, name pkg ++ lit "/" ++ version pkg)]).
Proof.
  intros pkg config client made Hc Hh Hs.
  unfold constructor, bind, new_RestApiClient, ret.
  rewrite Hc, Hh, Hs. cbn [negb orb].
  destruct (truthy client); reflexivity.
Qed.

Lemma constructor_chooses_transport_witness :
  let pkg := {| name := lit "azure-iot-provisioning-service";
                version := lit "1.0.0" |} in
  let config := VObj [("host", VStr (lit "h.example.net"));
                      ("sharedAccessSignature", VStr (lit "SharedAccessSignature sr=h"))]%string in
  constructor pkg config VUndefined []
  = (Returned {| _config := config; _restApiClient := Created 0 |},
     [(config, lit "azure-iot-provisioning-service/1.0.0")]).
Proof.
  intros pkg config.
  exact (constructor_chooses_transport pkg config VUndefined [] eq_refl eq_refl eq_refl).
Defined.

(** X10.  [fromConnectionString]: a falsy connection string is refused
    with [ReferenceError] before it is parsed; a connection string that
    parses to a host name, for which a credential is created, yields an
    instance configured with exactly that host and credential, over a
    transport of its own (one [RestApiClient] is instantiated); a failure
    thrown by [ConnectionString.parse] or by
    [SharedAccessSignature.create] comes out unchanged, with no transport
    instantiated. *)
Theorem fromConnectionString_outcomes :
  forall (pkg : package) (parse : value -> outcome object)
         (create : value -> value -> value -> value -> outcome value)
         (now : Z) (absent value_ unparsable incomplete : value)
         (cn cn' : object) (sas : value) (parse_failure create_failure : error)
         (made : factory),
    truthy absent = false ->
    truthy value_ = true ->
    parse value_ = Returned cn ->
    create (get_prop (VObj cn) "HostName") (get_prop (VObj cn) "SharedAccessKeyName")
           (get_prop (VObj cn) "SharedAccessKey") (VNum now) = Returned sas ->
    truthy (get_prop (VObj cn) "HostName") = true ->
    truthy sas = true ->
    truthy unparsable = true ->
    parse unparsable = Thrown parse_failure ->
    truthy incomplete = true ->
    parse incomplete = Returned cn' ->
    create (get_prop (VObj cn') "HostName") (get_prop (VObj cn') "SharedAccessKeyName")
           (get_prop (VObj cn') "SharedAccessKey") (VNum now) = Thrown create_failure ->
    let config := VObj [("host", get_prop (VObj cn) "HostName");
                        ("sharedAccessSignature", sas)]%string in
    fromConnectionString pkg parse create now absent made
    = (Thrown (ReferenceError (lit "value is '" ++ ToString absent ++ lit "'")), made)
    /\ fromConnectionString pkg parse create now value_ made
       = (Returned {| _config := config;
                      _restApiClient := Created (List.length made) |},
          made ++ [(config, name pkg ++ lit "/" ++ version pkg)])
    /\ fromConnectionString pkg parse create now unparsable made
       = (Thrown parse_failure, made)
    /\ fromConnectionString pkg parse create now incomplete made
       = (Thrown create_failure, made).
Proof.
  intros pkg parse create now absent value_ unparsable incomplete cn cn' sas
         parse_failure create_failure made
         Ha Hv Hp Hc Hh Hs Hu Hpu Hi Hpi Hci config.
  unfold fromConnectionString, bind.
  rewrite Ha, Hv, Hu, Hi, Hp, Hc, Hpu, Hpi, Hci. cbn [negb].
  split; [reflexivity |]. split; [| split; reflexivity].
  fold config.
  apply constructor_builds_transport; [reflexivity | exact Hh | exact Hs].
Qed.

Lemma fromConnectionString_outcomes_witness :
  let pkg := {| name := lit "azure-iot-provisioning-service";
                version := lit "1.0.0" |} in
  let full := lit "HostName=h.example.net;SharedAccessKeyName=owner;SharedAccessKey=a2V5" in
  let hostless := lit "SharedAccessKeyName=owner;SharedAccessKey=a2V5" in
  let cn := [("HostName", VStr (lit "h.example.net"));
             ("SharedAccessKeyName", VStr (lit "owner"));
             ("SharedAccessKey", VStr (lit "a2V5"))]%string in
  let cn' := [("SharedAccessKeyName", VStr (lit "owner"));
              ("SharedAccessKey", VStr (lit "a2V5"))]%string in
  let malformed := ArgumentError (lit "malformed connection string") in
  let no_resource := ReferenceError (lit "resourceUri is missing") in
  let parse := fun v : value =>
                 if jsstring_eqb (ToString v) full then Returned cn
                 else if jsstring_eqb (ToString v) hostless then Returned cn'
                 else Thrown malformed in
  let create := fun host keyName _ _ : value =>
                  if truthy host
                  then Returned (VStr (lit "SharedAccessSignature sr="
                                       ++ ToString host ++ lit "&skn="
                                       ++ ToString keyName))
                  else Thrown no_resource in
  let config := VObj [("host", VStr (lit "h.example.net"));
                      ("sharedAccessSignature",
                       VStr (lit "SharedAccessSignature sr=h.example.net&skn=owner"))]%string in
  fromConnectionString pkg parse create 1500000000000 (VStr (lit "")) []
  = (Thrown (ReferenceError (lit "value is ''")), [])
  /\ fromConnectionString pkg parse create 1500000000000 (VStr full) []
     = (Returned {| _config := config; _restApiClient := Created 0 |},
        [(config, lit "azure-iot-provisioning-service/1.0.0")])
  /\ fromConnectionString pkg parse create 1500000000000 (VStr (lit "nonsense")) []
     = (Thrown malformed, [])
  /\ fromConnectionString pkg parse create 1500000000000 (VStr hostless) []
     = (Thrown no_resource, []).
Proof.
  intros pkg full hostless cn cn' malformed no_resource parse create config.
  exact (fromConnectionString_outcomes pkg parse create 1500000000000
           (VStr (lit "")) (VStr full) (VStr (lit "nonsense")) (VStr hostless)
           cn cn' (VStr (lit "SharedAccessSignature sr=h.example.net&skn=owner"))
           malformed no_resource []
           eq_refl eq_refl eq_refl eq_refl eq_refl eq_refl
           eq_refl eq_refl eq_refl eq_refl eq_refl).
Defined.

(** ** The websocket connection URI *)

(** X11.  [AmqpWs._getConnectionUri] wraps the configured host between
    the fixed scheme [wss://] and the fixed port and path
    [:443/$iothub/websocket]; it validates nothing (a configuration
    without a host yields the host text [undefined]), and configurations
    with different host strings always get different URIs. *)
Theorem connection_uri_of_host :
  forall (config config' : object) (host host' : jsstring),
    get_prop (VObj config) "host" = VStr host ->
    get_prop (VObj config') "host" = VStr host' ->
    AmqpWs._getConnectionUri config
    = lit "wss://" ++ host ++ lit ":443/$iothub/websocket"
    /\ (AmqpWs._getConnectionUri config = AmqpWs._getConnectionUri config'
        -> host = host')
    /\ (forall bare, lookup bare "host" = None ->
          AmqpWs._getConnectionUri bare
          = lit "wss://undefined:443/$iothub/websocket").
Proof.
  intros config config' host host' H H'.
  unfold AmqpWs._getConnectionUri. rewrite H, H'. cbn [ToString].
  split; [reflexivity |]. split.
  - intros E. apply app_inv_head in E. apply app_inv_tail in E. exact E.
  - intros bare N. unfold get_prop. rewrite N. reflexivity.
Qed.

Lemma connection_uri_of_host_witness :
  let config := [("host", VStr (lit "hub.example.net"))]%string in
  AmqpWs._getConnectionUri config
  = lit "wss://hub.example.net:443/$iothub/websocket".
Proof.
  intros config.
  exact (proj1 (connection_uri_of_host config config (lit "hub.example.net")
                  (lit "hub.example.net") eq_refl eq_refl)).
Defined.

(** ** What a path can contain *)

Lemma uriUnreserved_ascii c : uriUnreserved c = true -> is_ascii c = true.
Proof.
  unfold uriUnreserved, in_range, is_ascii. intros H.
  repeat (apply orb_prop in H as [H | H]).
  all: try (apply andb_prop in H as [L U];
            apply Z.leb_le in L; apply Z.leb_le in U;
            apply andb_true_intro; split; [apply Z.leb_le | apply Z.ltb_lt]; lia).
  all: try (apply Z.eqb_eq in H; subst c; reflexivity).
  all: cbn in H; discriminate H.
Qed.

Lemma uri_safe_ascii c : uri_safe c = true -> is_ascii c = true.
Proof.
  unfold uri_safe. intros H. apply orb_prop in H as [H | H].
  - now apply uriUnreserved_ascii.
  - apply Z.eqb_eq in H; subst c; reflexivity.
Qed.

Lemma uri_safe_not_question c : uri_safe c = true -> c <> 63.
Proof. intros S ->. vm_compute in S. discriminate S. Qed.

(** The path of every request: the endpoint prefix, a segment of
    URI-safe code units, the version query string. *)
Lemma request_path_shape o c :
  In c (requests (run o)) ->
  exists segment,
    path c = endpoint o ++ segment ++ _versionQueryString
    /\ Forall (fun u => uri_safe u = true) segment.
Proof.
  destruct o; unfold requests; unfold_run; cbn [endpoint]; split_run;
    cbn [fst snd app In];
    intros H; first [ now destruct H | destruct H as [<- | []] ]; cbn [path].
  all: try match goal with
           | E : encodeURIComponent _ = Some ?j |- _ =>
               exists j; split; [reflexivity | exact (encodeURIComponent_safe _ _ E)]
           end.
  - exists []; split; [reflexivity | constructor].
  - exists (lit "query"); split; [reflexivity |].
    repeat constructor.
  - exists (lit "query"); split; [reflexivity |].
    repeat constructor.
  - exists (lit "query"); split; [reflexivity |].
    repeat constructor.
  - exists (lit "query"); split; [reflexivity |].
    repeat constructor.
Qed.

(** X12.  On the three endpoints of the service, the path of every
    request the class issues is pure ASCII and contains exactly one
    question mark -- the one that opens the version query string --
    whatever code units the identifier is made of: an identifier can
    neither smuggle a raw non-ASCII code unit into the request line nor
    add a query parameter. *)
Theorem path_is_ascii_with_one_query :
  forall (o : operation) (c : api_call),
    known_prefix (endpoint o) = true ->
    In c (requests (run o)) ->
    forallb is_ascii (path c) = true
    /\ count_occ Z.eq_dec (path c) 63 = 1%nat.
Proof.
  intros o c Hk I.
  destruct (request_path_shape o c I) as [segment [-> S]].
  assert (A : forallb is_ascii segment = true
              /\ count_occ Z.eq_dec segment 63 = 0%nat).
  { clear I. induction S as [| u t Su _ [IH1 IH2]]; [split; reflexivity |].
    split.
    - cbn [forallb]. now rewrite (uri_safe_ascii _ Su), IH1.
    - cbn [count_occ]. destruct (Z.eq_dec u 63) as [E |]; [| exact IH2].
      now apply uri_safe_not_question in Su. }
  destruct A as [A1 A2].
  rewrite !forallb_app, !count_occ_app, A1, A2.
  destruct (known_prefix_cases _ Hk) as [-> | [-> | ->]]; split; reflexivity.
Qed.

Lemma path_is_ascii_with_one_query_witness :
  let id := [233; 63; 8364] in
  let c := {| method := "GET";
              path := lit "/registrations/%C3%A9%3F%E2%82%AC?api-version=2017-08-31-preview";
              headers := [("Accept", application_json)]%string;
              body := VNull;
              done := relay_get VUndefined |} in
  forallb is_ascii (path c) = true
  /\ count_occ Z.eq_dec (path c) 63 = 1%nat.
Proof.
  intros id c.
  apply (path_is_ascii_with_one_query (Get _registrationsPrefix (VStr id) VUndefined) c).
  - reflexivity.
  - left; reflexivity.
Defined.

(** ** Identifiers that need no escaping *)

Lemma encodeURIComponent_unreserved s :
  forallb uriUnreserved s = true -> encodeURIComponent s = Some s.
Proof.
  induction s as [| c s IH]; [reflexivity |].
  intros H. apply andb_prop in H as [U R].
  rewrite encodeURIComponent_cons, U, (IH R). reflexivity.
Qed.

(** X13.  An identifier made only of unreserved characters (letters,
    digits and [-_.!~*'()]) appears verbatim in the path: fetch, delete
    and create-or-update address [prefix ++ id ++ version]. *)
Theorem unreserved_id_is_verbatim :
  forall (prefix id : jsstring) (entity cb : value) (log : wire),
    id <> [] ->
    forallb uriUnreserved id = true ->
    entity_id prefix entity = VStr id ->
    accepted_after_entity cb = true ->
    let expected := prefix ++ id ++ lit "?api-version=2017-08-31-preview" in
    (exists c, _get prefix (VStr id) cb log = (Returned tt, log ++ [c])
               /\ path c = expected)
    /\ (exists c, _delete prefix (VStr id) cb VUndefined log
                  = (Returned tt, log ++ [c])
                  /\ path c = expected)
    /\ (exists c, _createOrUpdate prefix entity cb log = (Returned tt, log ++ [c])
                  /\ path c = expected).
Proof.
  intros prefix id entity cb log Hid Hu Hf A expected.
  pose proof (encodeURIComponent_unreserved _ Hu) as Henc.
  split; [| split].
  - eexists; split; [apply (get_issues _ _ _ _ _ Hid Henc) | reflexivity].
  - unfold accepted_after_entity in A.
    destruct (truthy cb) eqn:T.
    + apply String.eqb_eq in A.
      eexists; split;
        [apply (delete_id_handler _ _ _ _ Hid Henc _ _ A) | reflexivity].
    + eexists; split;
        [apply (delete_id_alone _ _ _ _ Hid Henc _ _ T) | reflexivity].
  - eexists; split;
      [apply (createOrUpdate_issues _ _ _ _ _ _ Hf Hid Henc) | reflexivity].
Qed.

Lemma unreserved_id_is_verbatim_witness :
  let id := lit "device-01_a.b~c" in
  let entity := VObj [("enrollmentGroupId", VStr id)]%string in
  let expected := lit "/enrollmentGroups/device-01_a.b~c?api-version=2017-08-31-preview" in
  (exists c, _get _enrollmentGroupsPrefix (VStr id) VUndefined []
             = (Returned tt, [] ++ [c])
             /\ path c = expected)
  /\ (exists c, _delete _enrollmentGroupsPrefix (VStr id) VUndefined VUndefined []
                = (Returned tt, [] ++ [c])
                /\ path c = expected)
  /\ (exists c, _createOrUpdate _enrollmentGroupsPrefix entity VUndefined []
                = (Returned tt, [] ++ [c])
                /\ path c = expected).
Proof.
  intros id entity expected.
  apply (unreserved_id_is_verbatim _enrollmentGroupsPrefix id entity VUndefined []);
    try reflexivity.
  vm_compute; discriminate.
Defined.

(** ** When encoding fails *)

Lemma well_paired_cons c rest :
  well_paired (c :: rest) =
  if is_trail_surrogate c then false
  else if is_lead_surrogate c then
    match rest with
    | d :: rest' => is_trail_surrogate d && well_paired rest'
    | [] => false
    end
  else well_paired rest.
Proof. reflexivity. Qed.

Lemma unreserved_not_surrogate c :
  uriUnreserved c = true ->
  is_lead_surrogate c = false /\ is_trail_surrogate c = false.
Proof.
  intros U. apply uriUnreserved_ascii in U. unfold is_ascii in U.
  apply andb_prop in U as [L H]. apply Z.leb_le in L. apply Z.ltb_lt in H.
  unfold is_lead_surrogate, is_trail_surrogate, in_range.
  split; apply andb_false_intro1; apply Z.leb_gt; lia.
Qed.

Lemma option_map_none {A B} (f : A -> B) (x : option A) :
  option_map f x = None <-> x = None.
Proof. destruct x; simpl; split; congruence. Qed.

Lemma encodeURIComponent_fails_iff_step s :
  (encodeURIComponent s = None <-> well_paired s = false)
  /\ (forall c, encodeURIComponent (c :: s) = None
                <-> well_paired (c :: s) = false).
Proof.
  induction s as [| d s [IHs IHds]].
  - split; [split; discriminate |].
    intros c. rewrite encodeURIComponent_cons, well_paired_cons.
    destruct (uriUnreserved c) eqn:U.
    + destruct (unreserved_not_surrogate _ U) as [-> ->].
      split; discriminate.
    + destruct (is_trail_surrogate c); [tauto |].
      destruct (is_lead_surrogate c); [tauto |].
      split; discriminate.
  - split; [exact (IHds d) |].
    intros c. rewrite encodeURIComponent_cons, (well_paired_cons c).
    destruct (uriUnreserved c) eqn:U.
    + destruct (unreserved_not_surrogate _ U) as [-> ->].
      rewrite option_map_none. exact (IHds d).
    + destruct (is_trail_surrogate c); [tauto |].
      destruct (is_lead_surrogate c).
      * destruct (is_trail_surrogate d); [| tauto].
        rewrite option_map_none. exact IHs.
      * rewrite option_map_none. exact (IHds d).
Qed.

Lemma encodeURIComponent_fails_iff s :
  encodeURIComponent s = None <-> well_paired s = false.
Proof. apply encodeURIComponent_fails_iff_step. Qed.

(** A delete by identifier whose trailing arguments are not acceptable is
    refused before the identifier is encoded. *)
Lemma delete_by_id_not_accepted prefix id a2 a3 log :
  id <> [] ->
  accepted_after_id a2 a3 = false ->
  exists message,
    _delete prefix (VStr id) a2 a3 log = (Thrown (ArgumentError message), log).
Proof.
  intros Hid. unfold accepted_after_id, _delete, bind.
  rewrite (truthy_string _ Hid).
  change (String.eqb (typeof (VStr id)) "string") with true.
  cbn [negb].
  destruct (truthy a2); cbn [negb orb andb]; [| intros A; discriminate A].
  destruct (String.eqb (typeof a2) "string"); cbn [negb orb andb].
  - destruct (truthy a3); cbn [negb orb andb]; [| intros A; discriminate A].
    destruct (String.eqb (typeof a3) "function"); cbn [negb orb andb];
      [intros A; discriminate A |].
    intros _. eexists; reflexivity.
  - intros ->. eexists; reflexivity.
Qed.

(** With acceptable trailing arguments, an identifier that cannot be
    encoded makes the delete throw [URIError]. *)
Lemma delete_by_id_unencodable prefix id a2 a3 log :
  id <> [] ->
  encodeURIComponent id = None ->
  accepted_after_id a2 a3 = true ->
  _delete prefix (VStr id) a2 a3 log = (Thrown URIError, log).
Proof.
  intros Hid Henc. unfold accepted_after_id, _delete, bind.
  rewrite (truthy_string _ Hid).
  change (String.eqb (typeof (VStr id)) "string") with true.
  cbn [negb].
  destruct (truthy a2); cbn [negb orb andb].
  - destruct (String.eqb (typeof a2) "string") eqn:S2; cbn [negb orb andb].
    + destruct (truthy a3); cbn [negb orb andb].
      * destruct (String.eqb (typeof a3) "function");
          cbn [negb orb andb];
          [| intros A; apply String.eqb_eq in S2, A; rewrite S2 in A;
             discriminate A].
        intros _. unfold ret. rewrite (uri_component_undefined _ log Henc). reflexivity.
      * intros _. unfold ret. rewrite (uri_component_undefined _ log Henc). reflexivity.
    + intros ->. unfold ret.
      rewrite (uri_component_undefined _ log Henc). reflexivity.
  - intros _. unfold ret. rewrite (uri_component_undefined _ log Henc). reflexivity.
Qed.

(** X14.  Fetch by a non-empty identifier string fails with [URIError]
    exactly when the identifier holds a surrogate code unit that is not
    part of a lead/trail pair.  Delete by a non-empty identifier string
    fails with [URIError] exactly when, in addition, its trailing
    arguments are acceptable (unacceptable ones are refused first).  In
    both cases nothing reaches the transport; every other non-empty
    identifier is fetched with exactly one request. *)
Theorem uri_error_iff_unpaired_surrogate :
  forall (prefix id : jsstring) (a2 a3 cb : value) (log : wire),
    id <> [] ->
    (_get prefix (VStr id) cb log = (Thrown URIError, log)
     <-> well_paired id = false)
    /\ (_delete prefix (VStr id) a2 a3 log = (Thrown URIError, log)
        <-> accepted_after_id a2 a3 = true /\ well_paired id = false)
    /\ (well_paired id = true ->
        exists c, _get prefix (VStr id) cb log = (Returned tt, log ++ [c])).
Proof.
  intros prefix id a2 a3 cb log Hid.
  destruct (encodeURIComponent id) as [e |] eqn:E.
  - assert (W : well_paired id = true).
    { destruct (well_paired id) eqn:W; [reflexivity |].
      apply encodeURIComponent_fails_iff in W. congruence. }
    rewrite (get_issues _ _ _ _ _ Hid E), W.
    split; [split; discriminate |]. split.
    + split; [| intros [_ F]; discriminate F].
      destruct (accepted_after_id a2 a3) eqn:A.
      * destruct (delete_by_id_issues prefix id e a2 a3 log Hid E A)
          as [m [h ->]]. discriminate.
      * destruct (delete_by_id_not_accepted prefix id a2 a3 log Hid A)
          as [m ->]. discriminate.
    + intros _. eexists; reflexivity.
  - assert (W : well_paired id = false)
      by (now apply encodeURIComponent_fails_iff).
    assert (G : _get prefix (VStr id) cb log = (Thrown URIError, log)).
    { unfold _get, bind. rewrite (truthy_string _ Hid). cbv beta iota delta [negb].
      rewrite (uri_component_undefined _ log E). reflexivity. }
    rewrite G, W.
    split; [split; reflexivity |]. split; [| discriminate].
    destruct (accepted_after_id a2 a3) eqn:A.
    + rewrite (delete_by_id_unencodable prefix id a2 a3 log Hid E A).
      split; [intros _; now split | reflexivity].
    + destruct (delete_by_id_not_accepted prefix id a2 a3 log Hid A) as [m ->].
      split; [discriminate | intros [F _]; discriminate F].
Qed.

Lemma uri_error_iff_unpaired_surrogate_witness :
  let h := VFun 3 (lit "function (err) {}") in
  _get _enrollmentsPrefix (VStr [97; 56832]) VUndefined [] = (Thrown URIError, [])
  /\ _delete _enrollmentsPrefix (VStr [55357; 97]) (VStr (lit "abc")) h []
     = (Thrown URIError, [])
  /\ exists c, _get _enrollmentsPrefix (VStr [55357; 56832]) VUndefined []
               = (Returned tt, [] ++ [c]).
Proof.
  intros h.
  split; [| split].
  - apply (proj1 (uri_error_iff_unpaired_surrogate _enrollmentsPrefix
                    [97; 56832] VUndefined VUndefined VUndefined []
                    ltac:(discriminate))).
    reflexivity.
  - apply (proj1 (proj2 (uri_error_iff_unpaired_surrogate _enrollmentsPrefix
                    [55357; 97] (VStr (lit "abc")) h VUndefined []
                    ltac:(discriminate)))).
    split; reflexivity.
  - apply (proj2 (proj2 (uri_error_iff_unpaired_surrogate _enrollmentsPrefix
                    [55357; 56832] VUndefined VUndefined VUndefined []
                    ltac:(discriminate)))).
    reflexivity.
Defined.

(** ** Distinct identifiers, distinct paths *)

Lemma lor_continuation x : 0 <= x < 64 -> Z.lor 128 x = 128 + x.
Proof.
  intros H.
  assert (E : exists n, (n < 64)%nat /\ x = Z.of_nat n)
    by (exists (Z.to_nat x); lia).
  destruct E as [n [L ->]].
  do 64 (destruct n as [| n]; [reflexivity |]). lia.
Qed.

Lemma lor_lead2 x : 0 <= x < 32 -> Z.lor 192 x = 192 + x.
Proof.
  intros H.
  assert (E : exists n, (n < 32)%nat /\ x = Z.of_nat n)
    by (exists (Z.to_nat x); lia).
  destruct E as [n [L ->]].
  do 32 (destruct n as [| n]; [reflexivity |]). lia.
Qed.

Lemma lor_lead3 x : 0 <= x < 16 -> Z.lor 224 x = 224 + x.
Proof.
  intros H.
  assert (E : exists n, (n < 16)%nat /\ x = Z.of_nat n)
    by (exists (Z.to_nat x); lia).
  destruct E as [n [L ->]].
  do 16 (destruct n as [| n]; [reflexivity |]). lia.
Qed.

Lemma lor_lead4 x : 0 <= x < 8 -> Z.lor 240 x = 240 + x.
Proof.
  intros H.
  assert (E : exists n, (n < 8)%nat /\ x = Z.of_nat n)
    by (exists (Z.to_nat x); lia).
  destruct E as [n [L ->]].
  do 8 (destruct n as [| n]; [reflexivity |]). lia.
Qed.

Lemma land_63 x : Z.land x 63 = x mod 64.
Proof. change 63 with (Z.ones 6). now rewrite Z.land_ones by lia. Qed.

(** The octets of a code point, in arithmetic form. *)
Lemma utf8_octets_arith cp :
  0 <= cp < 1114112 ->
  utf8_octets cp =
  if cp <? 128 then [cp]
  else if cp <? 2048 then [192 + cp / 64; 128 + cp mod 64]
  else if cp <? 65536 then
    [224 + cp / 4096; 128 + (cp / 64) mod 64; 128 + cp mod 64]
  else
    [240 + cp / 262144; 128 + (cp / 4096) mod 64; 128 + (cp / 64) mod 64;
     128 + cp mod 64].
Proof.
  intros B. unfold utf8_octets.
  rewrite !land_63, !Z.shiftr_div_pow2 by lia.
  change (2 ^ 6) with 64; change (2 ^ 12) with 4096; change (2 ^ 18) with 262144.
  destruct (Z.ltb_spec cp 128); [reflexivity |].
  destruct (Z.ltb_spec cp 2048).
  { rewrite lor_lead2, lor_continuation by (Z.div_mod_to_equations; lia).
    reflexivity. }
  destruct (Z.ltb_spec cp 65536).
  { rewrite lor_lead3, !lor_continuation by (Z.div_mod_to_equations; lia).
    reflexivity. }
  rewrite lor_lead4, !lor_continuation by (Z.div_mod_to_equations; lia).
  reflexivity.
Qed.

Lemma hex_digit_inj a b : hex_digit a = hex_digit b -> a mod 16 = b mod 16.
Proof.
  unfold hex_digit. change 15 with (Z.ones 4).
  rewrite !Z.land_ones by lia. change (2 ^ 4) with 16.
  pose proof (Z.mod_pos_bound a 16 eq_refl).
  pose proof (Z.mod_pos_bound b 16 eq_refl).
  destruct (Z.ltb_spec (a mod 16) 10), (Z.ltb_spec (b mod 16) 10); lia.
Qed.

Lemma octet_of_hex b b' :
  0 <= b < 256 -> 0 <= b' < 256 ->
  hex_digit (Z.shiftr b 4) = hex_digit (Z.shiftr b' 4) ->
  hex_digit b = hex_digit b' ->
  b = b'.
Proof.
  intros B B' H L. apply hex_digit_inj in H, L.
  rewrite !Z.shiftr_div_pow2 in H by lia. change (2 ^ 4) with 16 in H.
  Z.div_mod_to_equations; lia.
Qed.

(** From the hex digits of two octets to the octets themselves. *)
Ltac octets_of_hex :=
  repeat match goal with
  | H : hex_digit (Z.shiftr ?a 4) = hex_digit (Z.shiftr ?b 4),
    L : hex_digit ?a = hex_digit ?b |- _ =>
      let E := fresh "E" in
      assert (E : a = b)
        by (apply octet_of_hex;
            [Z.div_mod_to_equations; lia | Z.div_mod_to_equations; lia
            | exact H | exact L]);
      clear H L
  end.

Ltac name_octets :=
  repeat match goal with
  | |- context [percent_octet ?b] =>
      tryif is_var b then fail else
        (let o := fresh "o" in remember b as o)
  end.

(** Percent-encoded code points are uniquely decodable: the encoding of
    one is never a prefix of the encoding of another. *)
Lemma percent_encode_inj cp cp' r r' :
  0 <= cp < 1114112 -> 0 <= cp' < 1114112 ->
  percent_encode cp ++ r = percent_encode cp' ++ r' ->
  cp = cp' /\ r = r'.
Proof.
  intros B B'. unfold percent_encode.
  rewrite (utf8_octets_arith _ B), (utf8_octets_arith _ B').
  destruct (Z.ltb_spec cp 128); [| destruct (Z.ltb_spec cp 2048);
                                   [| destruct (Z.ltb_spec cp 65536)]];
    (destruct (Z.ltb_spec cp' 128); [| destruct (Z.ltb_spec cp' 2048);
                                      [| destruct (Z.ltb_spec cp' 65536)]]);
    cbn [flat_map]; name_octets;
    cbn [percent_octet app]; intros Same; injection Same; clear Same;
    intros; octets_of_hex;
    first [ split; [Z.div_mod_to_equations; lia | congruence]
          | exfalso; Z.div_mod_to_equations; lia ].
Qed.

Lemma percent_encode_head cp : exists t, percent_encode cp = 37 :: t.
Proof.
  unfold percent_encode, utf8_octets.
  destruct (cp <? 128); [| destruct (cp <? 2048); [| destruct (cp <? 65536)]];
    cbn [flat_map percent_octet app]; eexists; reflexivity.
Qed.

Lemma encodeURIComponent_head c rest e :
  encodeURIComponent (c :: rest) = Some e -> encoded_head c rest e.
Proof.
  rewrite encodeURIComponent_cons.
  destruct (uriUnreserved c) eqn:U.
  - destruct (encodeURIComponent rest) as [e' |] eqn:R; [| discriminate].
    intros E; inversion E. now apply (head_plain _ _ _ e').
  - destruct (is_trail_surrogate c) eqn:T; [discriminate |].
    destruct (is_lead_surrogate c) eqn:L.
    + destruct rest as [| d rest']; [discriminate |].
      destruct (is_trail_surrogate d) eqn:D; [| discriminate].
      destruct (encodeURIComponent rest') as [e' |] eqn:R; [| discriminate].
      intros E; inversion E. now apply (head_pair _ _ _ d rest' e').
    + destruct (encodeURIComponent rest) as [e' |] eqn:R; [| discriminate].
      intros E; inversion E. now apply (head_escaped _ _ _ e').
Qed.

Lemma code_unit_bounds c : code_unit c = true -> 0 <= c < 65536.
Proof.
  unfold code_unit. intros H. apply andb_prop in H as [L U].
  apply Z.leb_le in L. apply Z.ltb_lt in U. lia.
Qed.

Lemma surrogate_pair_bounds c d :
  is_lead_surrogate c = true -> is_trail_surrogate d = true ->
  55296 <= c <= 56319 /\ 56320 <= d <= 57343
  /\ 65536 <= pair_code_point c d < 1114112.
Proof.
  unfold is_lead_surrogate, is_trail_surrogate, in_range, pair_code_point.
  intros L T. apply andb_prop in L as [L1 L2]. apply andb_prop in T as [T1 T2].
  apply Z.leb_le in L1, L2, T1, T2. lia.
Qed.

Lemma plain_is_not_escaped c e cp e' :
  uriUnreserved c = true -> c :: e = percent_encode cp ++ e' -> False.
Proof.
  intros U E. destruct (percent_encode_head cp) as [t T].
  rewrite T in E. inversion E; subst. vm_compute in U. discriminate U.
Qed.

Lemma encodeURIComponent_nonempty c rest e :
  encodeURIComponent (c :: rest) = Some e -> e <> [].
Proof.
  intros E. apply encodeURIComponent_head in E.
  destruct E as [e' _ _ X | e' _ _ _ _ X | d r e' _ _ _ _ _ X]; subst e;
    [discriminate | |].
  - destruct (percent_encode_head c) as [t ->]. discriminate.
  - destruct (percent_encode_head (pair_code_point c d)) as [t ->]. discriminate.
Qed.

Lemma encodeURIComponent_injective_upto n :
  forall s s' e,
    (List.length s <= n)%nat ->
    forallb code_unit s = true -> forallb code_unit s' = true ->
    encodeURIComponent s = Some e -> encodeURIComponent s' = Some e ->
    s = s'.
Proof.
  induction n as [| n IH]; intros s s' e Len W W' E E';
    (destruct s as [| c r];
     [ inversion E; subst e; destruct s' as [| c' r']; [reflexivity |];
       now apply encodeURIComponent_nonempty in E' |]);
    [simpl in Len; lia |].
  destruct s' as [| c' r'];
    [inversion E'; subst e; now apply encodeURIComponent_nonempty in E |].
  simpl in Len.
  cbn [forallb] in W, W'.
  apply andb_prop in W as [Wc Wr]. apply andb_prop in W' as [Wc' Wr'].
  pose proof (code_unit_bounds _ Wc) as Bc.
  pose proof (code_unit_bounds _ Wc') as Bc'.
  apply encodeURIComponent_head in E, E'.
  destruct E as [e1 U1 R1 X1 | e1 U1 T1 L1 R1 X1 | d1 r1 e1 U1 L1 D1 Q1 R1 X1];
    destruct E' as [e2 U2 R2 X2 | e2 U2 T2 L2 R2 X2 | d2 r2 e2 U2 L2 D2 Q2 R2 X2];
    subst e.
  - inversion X2; subst. f_equal. apply (IH r r' e2); try assumption; lia.
  - exfalso. exact (plain_is_not_escaped _ _ _ _ U1 X2).
  - exfalso. exact (plain_is_not_escaped _ _ _ _ U1 X2).
  - exfalso. symmetry in X2. exact (plain_is_not_escaped _ _ _ _ U2 X2).
  - apply percent_encode_inj in X2 as [-> ->]; [| lia | lia].
    f_equal. apply (IH r r' e2); try assumption; lia.
  - destruct (surrogate_pair_bounds _ _ L2 D2) as [_ [_ P]].
    apply percent_encode_inj in X2 as [X _]; [| lia | lia]. lia.
  - exfalso. symmetry in X2. exact (plain_is_not_escaped _ _ _ _ U2 X2).
  - destruct (surrogate_pair_bounds _ _ L1 D1) as [_ [_ P]].
    apply percent_encode_inj in X2 as [X _]; [| lia | lia]. lia.
  - destruct (surrogate_pair_bounds _ _ L1 D1) as [C1 [C2 P1]].
    destruct (surrogate_pair_bounds _ _ L2 D2) as [C3 [C4 P2]].
    apply percent_encode_inj in X2 as [X ->]; [| lia | lia].
    unfold pair_code_point in X.
    assert (c = c' /\ d1 = d2) as [-> ->] by lia.
    subst r r'. f_equal. f_equal.
    cbn [forallb] in Wr, Wr'.
    apply andb_prop in Wr as [_ Wr]. apply andb_prop in Wr' as [_ Wr'].
    simpl in Len.
    apply (IH r1 r2 e2); try assumption; lia.
Qed.

Lemma encodeURIComponent_injective s s' e :
  forallb code_unit s = true -> forallb code_unit s' = true ->
  encodeURIComponent s = Some e -> encodeURIComponent s' = Some e ->
  s = s'.
Proof. apply (encodeURIComponent_injective_upto (List.length s)). lia. Qed.

(** The path of a request about an identifier. *)
Lemma addressed_path o id c :
  addressed o = Some id ->
  In c (requests (run o)) ->
  exists e, encodeURIComponent id = Some e
            /\ path c = endpoint o ++ e ++ _versionQueryString.
Proof.
  destruct o as [p v cb | p v cb | p v a2 a3 | |]; cbn [addressed];
    try discriminate; destruct v; try discriminate; cbn [endpoint].
  - (* create-or-update with an entity object *)
    unfold requests, run, _createOrUpdate, entity_id, bind, uri_component,
      ret, throw, executeApiCall.
    change (truthy (VObj props)) with true. cbn [negb].
    destruct (if jsstring_eqb p _enrollmentGroupsPrefix
              then get_prop (VObj props) "enrollmentGroupId"
              else get_prop (VObj props) "registrationId") eqn:F;
      try discriminate.
    intros A; inversion A; subst s. cbn [ToString].
    destruct id as [| u t]; [intros []|].
    cbn [truthy negb].
    destruct (encodeURIComponent (u :: t)) as [e |]; cbn [fst snd app In];
      [| intros []].
    intros [<- | []]. exists e; split; reflexivity.
  - (* fetch by identifier string *)
    intros A; inversion A; subst s.
    unfold requests, run, _get, bind, uri_component, ret, throw, executeApiCall.
    cbn [ToString].
    destruct id as [| u t]; [intros [] |]. cbn [truthy negb].
    destruct (encodeURIComponent (u :: t)) as [e |]; cbn [fst snd app In];
      [| intros []].
    intros [<- | []]. exists e; split; reflexivity.
  - (* delete by identifier string *)
    intros A; inversion A; subst s.
    unfold requests; unfold_run.
    destruct id as [| u t]; [intros [] |].
    cbn [truthy negb typeof ToString].
    change (String.eqb "string" "string") with true.
    split_run; cbn [fst snd app In];
      intros I; first [ now destruct I | destruct I as [<- | []] ]; cbn [path];
      eexists; (split; [eassumption | reflexivity]).
  - (* delete by entity object *)
    unfold entity_id, requests; unfold_run.
    change (truthy (VObj props)) with true.
    change (String.eqb (typeof (VObj props)) "string") with false.
    cbv beta iota delta [negb].
    destruct (jsstring_eqb p _enrollmentsPrefix) eqn:P1;
      [apply jsstring_eqb_eq in P1; subst p;
       change (jsstring_eqb _enrollmentsPrefix _enrollmentGroupsPrefix) with false
      | destruct (jsstring_eqb p _enrollmentGroupsPrefix) eqn:P2;
        [| destruct (jsstring_eqb p _registrationsPrefix) eqn:P3;
           [| intros _ []]]];
      cbv beta iota;
      match goal with
      | |- context [get_prop (VObj props) ?k] =>
          destruct (get_prop (VObj props) k) eqn:G
      end;
      try discriminate;
      intros A; inversion A; subst s; cbn [ToString];
      split_run; cbn [fst snd app In];
      intros I; first [ now destruct I | destruct I as [<- | []] ]; cbn [path];
      eexists; (split; [eassumption | reflexivity]).
Qed.

(** X15.  Two requests about well-formed identifiers, built on the same
    endpoint prefix, have the same path only if they are about the same
    identifier: percent-encoding never lets two identifiers collide on
    one resource, across fetch, delete and create-or-update. *)
Theorem same_path_same_identifier :
  forall (o o' : operation) (id id' : jsstring) (c c' : api_call),
    endpoint o = endpoint o' ->
    addressed o = Some id ->
    addressed o' = Some id' ->
    forallb code_unit id = true ->
    forallb code_unit id' = true ->
    In c (requests (run o)) ->
    In c' (requests (run o')) ->
    path c = path c' ->
    id = id'.
Proof.
  intros o o' id id' c c' Hp A A' W W' I I' Same.
  destruct (addressed_path _ _ _ A I) as [e [E P]].
  destruct (addressed_path _ _ _ A' I') as [e' [E' P']].
  rewrite P, P', Hp in Same.
  apply app_inv_head, app_inv_tail in Same. subst e'.
  exact (encodeURIComponent_injective _ _ _ W W' E E').
Qed.

Lemma same_path_same_identifier_witness :
  let id := lit "a b" in
  let o := Get _enrollmentsPrefix (VStr id) VUndefined in
  let o' := Delete _enrollmentsPrefix
              (VObj [("registrationId", VStr id)]%string) VUndefined VUndefined in
  let p := lit "/enrollments/a%20b?api-version=2017-08-31-preview" in
  let c := {| method := "GET"; path := p;
              headers := [("Accept", application_json)]%string;
              body := VNull; done := relay_get VUndefined |} in
  let c' := delete_request _enrollmentsPrefix (lit "a%20b") None VUndefined in
  In c (requests (run o)) /\ In c' (requests (run o')) /\ id = id.
Proof.
  intros id o o' p c c'.
  assert (I : In c (requests (run o))) by (left; reflexivity).
  assert (I' : In c' (requests (run o'))) by (left; reflexivity).
  split; [exact I |]. split; [exact I' |].
  exact (same_path_same_identifier o o' id id c c'
           eq_refl eq_refl eq_refl eq_refl eq_refl I I' eq_refl).
Defined.

(** ** Delete: more on its arguments *)

(** X16.  A delete whose first argument is absent or falsy -- the empty
    string included -- fails with the missing-argument condition,
    whatever the prefix and the other arguments are (this check comes
    before every other validation), and nothing reaches the transport. *)
Theorem delete_missing_first_argument :
  forall (prefix : jsstring) (first a2 a3 : value) (log : wire),
    truthy first = false ->
    exists failure,
      _delete prefix first a2 a3 log = (Thrown failure, log)
      /\ failure = ReferenceError
           (lit "Required parameter '" ++ ToString first
            ++ lit "' was null or undefined when calling delete.")
      /\ missing_condition failure = true
      /\ invalid_condition failure = false.
Proof.
  intros prefix first a2 a3 log F. unfold _delete. rewrite F.
  eexists; split; [reflexivity |]. repeat split.
Qed.

Lemma delete_missing_first_argument_witness :
  exists failure,
    _delete _enrollmentsPrefix (VStr (lit "")) (VNum 3) (VNum 4) []
    = (Thrown failure, [])
    /\ failure = ReferenceError
         (lit "Required parameter '' was null or undefined when calling delete.")
    /\ missing_condition failure = true
    /\ invalid_condition failure = false.
Proof.
  exact (delete_missing_first_argument _enrollmentsPrefix (VStr (lit ""))
           (VNum 3) (VNum 4) [] eq_refl).
Defined.

(** X17.  The third argument of a delete matters only after an
    identifier string followed by a non-empty entity tag string: in every
    other call shape (entity object first, or a second argument that is
    absent, empty or a handler) it is never looked at, so any two third
    arguments give the same run. *)
Theorem delete_third_argument_ignored :
  forall (prefix : jsstring) (first a2 a3 a3' : value) (log : wire),
    String.eqb (typeof first) "string" && is_etag a2 = false ->
    _delete prefix first a2 a3 log = _delete prefix first a2 a3' log.
Proof.
  intros prefix first a2 a3 a3' log H. unfold is_etag in H.
  unfold _delete, bind.
  destruct (truthy first); cbn [negb]; [| reflexivity].
  destruct (String.eqb (typeof first) "string"); [| reflexivity].
  destruct (truthy a2); cbn [negb]; [| reflexivity].
  destruct (String.eqb (typeof a2) "string"); [discriminate H | reflexivity].
Qed.

Lemma delete_third_argument_ignored_witness :
  let h := VFun 2 (lit "function (err) {}") in
  _delete _enrollmentsPrefix (VStr (lit "r1")) h (VNum 4) []
  = _delete _enrollmentsPrefix (VStr (lit "r1")) h VUndefined [].
Proof.
  intros h.
  exact (delete_third_argument_ignored _enrollmentsPrefix (VStr (lit "r1"))
           h (VNum 4) VUndefined [] eq_refl).
Defined.

(** X18.  The completion of a delete request either tells nobody or
    calls a function that was passed as second or third argument, with
    exactly one argument: the transport's error, or [null] on success.
    A delete never calls a non-function and never hands a payload to its
    handler. *)
Theorem delete_handler_gets_error_or_null :
  forall (prefix : jsstring) (first a2 a3 : value) (c : api_call) (r : response),
    In c (requests (_delete prefix first a2 a3)) ->
    done c r = Discarded
    \/ exists h,
         (h = a2 \/ h = a3)
         /\ typeof h = "function"%string
         /\ done c r = Called h [if truthy (err r) then err r else VNull].
Proof.
  intros prefix first a2 a3 c r.
  assert (K : forall h, typeof h = "function"%string ->
                relay_delete h r
                = Called h [if truthy (err r) then err r else VNull]).
  { intros h F. unfold relay_delete, call_handler.
    rewrite (truthy_function _ F), F. destruct (truthy (err r)); reflexivity. }
  unfold requests, _delete, bind, uri_component, ret, throw, executeApiCall.
  split_run; cbn [fst snd app In];
    intros I; first [ now destruct I | destruct I as [<- | []] ]; cbn [done];
    first [ left; reflexivity
          | right; exists a2; split; [now left |]; split;
            [| apply K];
            match goal with
            | H : negb (String.eqb (typeof a2) "function") = false |- _ =>
                apply negb_false_iff, String.eqb_eq in H; exact H
            | H : String.eqb (typeof a2) "function" = true |- _ =>
                apply String.eqb_eq in H; exact H
            end
          | right; exists a3; split; [now right |]; split;
            [| apply K];
            match goal with
            | H : negb (String.eqb (typeof a3) "function") = false |- _ =>
                apply negb_false_iff, String.eqb_eq in H; exact H
            end ].
Qed.

Lemma delete_handler_gets_error_or_null_witness :
  let h := VFun 2 (lit "function (err) {}") in
  let r := {| err := VNull; result := VObj []; httpResponse := VObj [] |} in
  let c := delete_request _enrollmentsPrefix (lit "r1")
             (Some (VStr (lit "abc"))) h in
  done c r = Discarded
  \/ exists f,
       (f = VStr (lit "abc") \/ f = h)
       /\ typeof f = "function"%string
       /\ done c r = Called f [if truthy (err r) then err r else VNull].
Proof.
  intros h r c.
  apply (delete_handler_gets_error_or_null _enrollmentsPrefix
           (VStr (lit "r1")) (VStr (lit "abc")) h c r).
  left; reflexivity.
Defined.

(** X19.  The three public delete operations always pass one of the
    three known prefixes, so whatever their arguments they never fail
    with the "Invalid path specified for delete operation." error of the
    shared delete routine. *)
Theorem public_delete_never_invalid_path :
  forall (first a2 a3 : value) (log log' : wire) (failure : error),
    deleteIndividualEnrollment first a2 a3 log = (Thrown failure, log')
    \/ deleteEnrollmentGroup first a2 a3 log = (Thrown failure, log')
    \/ deleteDeviceRegistrationStatus first a2 a3 log = (Thrown failure, log') ->
    failure <> ArgumentError (lit "Invalid path specified for delete operation.").
Proof.
  intros first a2 a3 log log' failure.
  unfold deleteIndividualEnrollment, deleteEnrollmentGroup,
    deleteDeviceRegistrationStatus, _delete, bind, uri_component, ret, throw,
    executeApiCall.
  repeat match goal with
  | |- context [jsstring_eqb ?a ?b] =>
      let v := eval vm_compute in (jsstring_eqb a b) in
      change (jsstring_eqb a b) with v
  end.
  cbv beta iota.
  intros [H | [H | H]]; revert H; split_run; intros H;
    inversion H; subst; intros N; inversion N as [Q];
    vm_compute in Q; discriminate Q.
Qed.

Lemma public_delete_never_invalid_path_witness :
  ArgumentError (lit "Required property 'enrollmentGroupId' was null or undefined when calling delete.")
  <> ArgumentError (lit "Invalid path specified for delete operation.").
Proof.
  apply (public_delete_never_invalid_path (VObj []) VUndefined VUndefined [] []).
  right; left; reflexivity.
Defined.
